(** * beeswarm: the session persister (server/db/session_persister.py)

    A shallow embedding of [SessionPersister]: the ingestion loop [_run],
    [persist_session], [extract_auth_entity], [get_matching_session] and
    [merge_bait_and_session], together with the properties of the
    correlation-and-classification pipeline.

    Conventions of the embedding.
    - A Python 2 [str] (a byte string: the bus message, its topic, the
      payload) is a [string]; a [unicode] text (what [json.loads] yields)
      is a list of code points.
    - A [datetime] is its number of microseconds since 0001-01-01T00:00:00,
      a [Z] inside [datetime_min, datetime_max]; adding a [timedelta]
      outside that range raises [OverflowError], as in Python.
    - The store is the committed content of the database: the rows of the
      tables in enumeration order.  Changes staged in the ORM session reach
      it at [commit]; an exception raised before [commit] leaves it as it
      was.
    - Exceptions are values of [exn]; fallible code lives in [result]. *)

From Stdlib Require Import ZArith List String Ascii Bool Lia NArith.
Import ListNotations.

Local Open Scope string_scope.
Local Open Scope list_scope.
Local Open Scope Z_scope.

Set Implicit Arguments.

(** ** Exceptions and the error monad *)

Inductive exn : Type :=
| KeyError (key : string)
| AssertionError
| ValueError
| UnicodeDecodeError
| UnicodeEncodeError
| OverflowError
| NoResultFound
| MultipleResultsFound
| IntegrityError.

Inductive result (A : Type) : Type :=
| Ok (a : A)
| Raise (e : exn).

Arguments Ok {A} a.
Arguments Raise {A} e.

Definition bind {A B : Type} (m : result A) (k : A -> result B) : result B :=
  match m with
  | Ok a => k a
  | Raise e => Raise e
  end.

Declare Scope py_scope.
Delimit Scope py_scope with py.
Notation "x <- m ;; k" := (bind m (fun x => k))
  (at level 100, m at next level, right associativity) : py_scope.
Notation "'assert' b ;; k" := (if b then k else Raise AssertionError)
  (at level 100, b at next level, right associativity) : py_scope.
Local Open Scope py_scope.

(** [d[key]] on a dict decoded from JSON: a missing key raises [KeyError]. *)
Definition getitem {A : Type} (key : string) (field : option A) : result A :=
  match field with
  | Some v => Ok v
  | None => Raise (KeyError key)
  end.

(** [for x in xs: ys.append(f(x))] with a fallible [f]. *)
Fixpoint for_each {A B : Type} (f : A -> result B) (xs : list A) : result (list B) :=
  match xs with
  | [] => Ok []
  | x :: rest =>
      y <- f x ;;
      ys <- for_each f rest ;;
      Ok (y :: ys)
  end.

(** ** Text, time *)

Definition unicode : Type := list N.

Fixpoint unicode_eqb (a b : unicode) : bool :=
  match a, b with
  | [], [] => true
  | x :: a', y :: b' => N.eqb x y && unicode_eqb a' b'
  | _, _ => false
  end.

(** [unicode(s, "ISO-8859-1")]: every byte is the code point of the same
    number, so the decoding is total. *)
Fixpoint latin1_decode (s : string) : unicode :=
  match s with
  | EmptyString => []
  | String c rest => N_of_ascii c :: latin1_decode rest
  end.

Definition datetime : Type := Z.
Definition timedelta : Type := Z.

Definition datetime_min : datetime := 0.
(** 9999-12-31T23:59:59.999999: 3652059 days, less one microsecond. *)
Definition datetime_max : datetime := 3652059 * 86400 * 1000000 - 1.

Definition seconds (n : Z) : timedelta := n * 1000000.

Definition datetime_in_range (t : Z) : bool :=
  (datetime_min <=? t) && (t <=? datetime_max).

Definition datetime_add (t : datetime) (d : timedelta) : result datetime :=
  if datetime_in_range (t + d) then Ok (t + d) else Raise OverflowError.

Definition datetime_sub (t : datetime) (d : timedelta) : result datetime :=
  if datetime_in_range (t - d) then Ok (t - d) else Raise OverflowError.

(** ** Entities (beeswarm.server.db.entities) *)

Record Authentication : Type := mkAuthentication {
  auth_id : unicode;
  username : unicode;
  password : unicode;
  successful : bool;
  auth_timestamp : datetime
}.

Record Transcript : Type := mkTranscript {
  transcript_timestamp : datetime;
  direction : unicode;
  transcript_data : unicode
}.

(** The columns a [BaitSession] adds to a [Session]. *)
Record BaitColumns : Type := mkBaitColumns {
  did_connect : bool;
  did_login : bool;
  did_complete : bool;
  client : unicode
}.

(** A row of the session table.  [bait] holds the [BaitSession] columns and
    is [None] for a plain [Session]; [honeypot] and [classification] are the
    foreign keys of the rows they refer to. *)
Record Session : Type := mkSession {
  id : unicode;
  classification : string;
  timestamp : datetime;
  received : datetime;
  protocol : unicode;
  destination_ip : unicode;
  destination_port : Z;
  source_ip : unicode;
  source_port : Z;
  honeypot : unicode;
  authentication : list Authentication;
  transcript : list Transcript;
  session_data : list unicode;
  bait : option BaitColumns
}.

(** Modelled from the spec: the entity declarations (entities.py) are not
    part of the sources.  The discriminator is the tag that tells the two
    variants of a session apart, the column [type] of the session table: a
    [BaitSession] carries the identity ['bait_session'], and a plain
    [Session], which declares none, carries NULL. *)
Definition discriminator (s : Session) : option string :=
  match bait s with
  | None => None
  | Some _ => Some "bait_session"
  end.

(** [column != value] in the filter of a query.  Against [None] the ORM
    renders [column IS NOT NULL]; against a value it renders the SQL
    comparison, which is not true of a row whose column is NULL. *)
Definition sql_ne (column value : option string) : bool :=
  match value, column with
  | None, Some _ => true
  | None, None => false
  | Some v, Some c => negb (String.eqb c v)
  | Some _, None => false
  end.

Record Client : Type := mkClient {
  client_id : unicode;
  last_activity : option datetime
}.

(** The committed content of the database. *)
Record Store : Type := mkStore {
  classifications : list string;
  honeypots : list unicode;
  clients : list Client;
  sessions : list Session
}.

(** [Query.one()]: exactly one row, or an exception. *)
Definition one {A : Type} (rows : list A) : result A :=
  match rows with
  | [] => Raise NoResultFound
  | [row] => Ok row
  | _ :: _ :: _ => Raise MultipleResultsFound
  end.

(** [db_session.query(Classification).filter(Classification.type == label).one()] *)
Definition query_classification (db : Store) (label : string) : result string :=
  one (filter (String.eqb label) (classifications db)).

(** [db_session.query(Honeypot).filter(Honeypot.id == honeypot_id).one()] *)
Definition query_honeypot (db : Store) (honeypot_id : unicode) : result unicode :=
  one (filter (unicode_eqb honeypot_id) (honeypots db)).

(** [db_session.query(Client).filter(Client.id == client_id).one()] *)
Definition query_client (db : Store) (cid : unicode) : result Client :=
  one (filter (fun c => unicode_eqb cid (client_id c)) (clients db)).

(** ** get_matching_session *)

(** The filters of the candidate query, for the row [candidate]. *)
Definition candidate_filter (session : Session) (min_datetime max_datetime : datetime)
    (candidate : Session) : bool :=
  unicode_eqb (protocol candidate) (protocol session)
  && unicode_eqb (honeypot candidate) (honeypot session)
  && sql_ne (discriminator candidate) (discriminator session)
  && (min_datetime <=? timestamp candidate)
  && (timestamp candidate <=? max_datetime)
  && negb (unicode_eqb (id candidate) (id session)).

Definition auth_equal (session_auth honey_auth : Authentication) : bool :=
  unicode_eqb (username session_auth) (username honey_auth)
  && unicode_eqb (password session_auth) (password honey_auth)
  && Bool.eqb (successful session_auth) (successful honey_auth).

(** [for session_auth in potential_match.authentication]: the innermost
    loop; [break] leaves this loop only. *)
Fixpoint scan_session_auths (session potential_match : Session)
    (honey_auth : Authentication) (auths : list Authentication)
    (match_ : option Session) : result (option Session) :=
  match auths with
  | [] => Ok match_
  | session_auth :: rest =>
      if auth_equal session_auth honey_auth then
        assert negb (unicode_eqb (id potential_match) (id session)) ;;
        Ok (Some potential_match)
      else scan_session_auths session potential_match honey_auth rest match_
  end.

(** [for honey_auth in session.authentication] *)
Fixpoint scan_honey_auths (session potential_match : Session)
    (auths : list Authentication) (match_ : option Session)
    : result (option Session) :=
  match auths with
  | [] => Ok match_
  | honey_auth :: rest =>
      match_' <- scan_session_auths session potential_match honey_auth
                   (authentication potential_match) match_ ;;
      scan_honey_auths session potential_match rest match_'
  end.

(** [for potential_match in sessions] *)
Fixpoint scan_candidates (session : Session) (candidates : list Session)
    (match_ : option Session) : result (option Session) :=
  match candidates with
  | [] => Ok match_
  | potential_match :: rest =>
      assert negb (unicode_eqb (id potential_match) (id session)) ;;
      match_' <- scan_honey_auths session potential_match
                   (authentication session) match_ ;;
      scan_candidates session rest match_'
  end.

Definition candidate_query (session : Session) (db : Store)
    (min_datetime max_datetime : datetime) : list Session :=
  filter (candidate_filter session min_datetime max_datetime) (sessions db).

Definition get_matching_session (session : Session) (db : Store) (timediff : Z)
    : result (option Session) :=
  min_datetime <- datetime_sub (timestamp session) (seconds timediff) ;;
  max_datetime <- datetime_add (timestamp session) (seconds timediff) ;;
  scan_candidates session (candidate_query session db min_datetime max_datetime) None.

(** ** merge_bait_and_session *)

(** The UPDATE of the row whose primary key is that of [row']. *)
Definition update_session (row' : Session) (rows : list Session) : list Session :=
  map (fun row => if unicode_eqb (id row) (id row') then row' else row) rows.

(** The DELETE of the row whose primary key is [key]. *)
Definition delete_session (key : unicode) (rows : list Session) : list Session :=
  filter (fun row => negb (unicode_eqb (id row) key)) rows.

Definition lookup_session (key : unicode) (rows : list Session) : option Session :=
  find (fun row => unicode_eqb (id row) key) rows.

Definition with_sessions (db : Store) (rows : list Session) : Store :=
  mkStore (classifications db) (honeypots db) (clients db) rows.

(** The bait session after the three assignments of the merge. *)
Definition merged_bait (honeypot_session bait_session : Session) (label : string)
    : Session :=
  mkSession (id bait_session) label (timestamp bait_session)
    (received bait_session) (protocol bait_session)
    (destination_ip bait_session) (destination_port bait_session)
    (source_ip bait_session) (source_port bait_session)
    (honeypot bait_session) (authentication bait_session)
    (transcript honeypot_session) (session_data honeypot_session)
    (bait bait_session).

(** A text of ASCII characters only. *)
Definition is_ascii (text : unicode) : bool :=
  forallb (fun c => (c <? 128)%N) text.

(** Lines 184 and 185: the message of the debug line is built by
    [str.format] from the two identifiers, which are unicode texts; Python 2
    encodes them as ASCII there and raises [UnicodeEncodeError] when it
    cannot, whatever the level of the logger. *)
Definition format_merge_message (honeypot_session bait_session : Session)
    : result (unicode * unicode) :=
  if is_ascii (id bait_session) && is_ascii (id honeypot_session)
  then Ok (id bait_session, id honeypot_session)
  else Raise UnicodeEncodeError.

(** Modelled from the spec: the entity declarations (entities.py) are not
    part of the sources, so what the ORM does with the rows of
    [honeypot_session.transcript] once they are assigned to the bait session
    follows the spec's merge: they are re-parented onto the bait session and
    survive the deletion of the honeypot session. *)
Definition merge_bait_and_session (honeypot_session bait_session : Session)
    (db : Store) : result Store :=
  _ <- format_merge_message honeypot_session bait_session ;;
  label <- query_classification db "bait_session" ;;
  let bait_session' := merged_bait honeypot_session bait_session label in
  Ok (with_sessions db
        (delete_session (id honeypot_session)
           (update_session bait_session' (sessions db)))).

(** ** The decoded payload *)

(** The dict [json.loads] returns, with the types of the interface; a field
    is [None] when its key is absent.  [honeypot_id] may also be JSON null. *)
Record TranscriptData : Type := mkTranscriptData {
  td_timestamp : option unicode;
  td_direction : option unicode;
  td_data : option unicode
}.

Record AuthData : Type := mkAuthData {
  ad_id : option unicode;
  ad_username : option unicode;
  ad_password : option unicode;
  ad_successful : option bool;
  ad_timestamp : option unicode
}.

Record Data : Type := mkData {
  d_id : option unicode;
  d_timestamp : option unicode;
  d_protocol : option unicode;
  d_destination_ip : option unicode;
  d_destination_port : option Z;
  d_source_ip : option unicode;
  d_source_port : option Z;
  d_honeypot_id : option (option unicode);
  d_transcript : option (list TranscriptData);
  d_login_attempts : option (list AuthData);
  d_client_id : option unicode;
  d_did_connect : option bool;
  d_did_login : option bool;
  d_did_complete : option bool
}.

(** ** What the persister imports

    [Messages] (beeswarm.shared.message_enum) and the library functions
    [json.loads] and [datetime.strptime] are not part of the sources; the
    development is parametric in them.  [strptime] is
    [datetime.strptime(_, '%Y-%m-%dT%H:%M:%S.%f')], the only format used;
    [json_loads_str] is [json.loads] on a byte string, which decodes UTF-8,
    and [json_loads_unicode] is [json.loads] on a unicode text. *)
Class Imports : Type := {
  SESSION_HONEYPOT : string;
  SESSION_CLIENT : string;
  strptime : unicode -> result datetime;
  json_loads_str : string -> result Data;
  json_loads_unicode : unicode -> result Data
}.

(** What one call of [persist_session] reads from outside the store: the
    clocks, and the truth value of the answer to the configuration request
    [GET_CONFIG_ITEM ignore_failed_bait_session]. *)
Record Env : Type := mkEnv {
  now : datetime;
  utcnow : datetime;
  ignore_failed_bait_session : bool
}.

Inductive LogRecord : Type :=
| debug_persisting (session_type : string)
| debug_ignore_failed_bait_session
| warn_unknown_message_type (session_type : string)
| debug_merge (bait_id honeypot_id : unicode).

Inductive Outcome : Type :=
| Returned
| Raised (e : exn).

(** The committed store, the log and the way the call ended. *)
Record Run : Type := mkRun {
  store : Store;
  log : list LogRecord;
  outcome : Outcome
}.

(** What [persist_session] has built when it reaches [db_session.add]:
    nothing, after one of the two early [return]s, or the session and the
    client table with the client's [last_activity] set. *)
Inductive Staged : Type :=
| ignored_failed_bait
| unknown_message_type
| staged (session : Session) (clients' : list Client).

Section Persister.

Context {imports : Imports}.

(** ** extract_auth_entity *)

Definition extract_auth_entity (auth_data : AuthData) : result Authentication :=
  let username := match ad_username auth_data with Some u => u | None => [] end in
  let password := match ad_password auth_data with Some p => p | None => [] end in
  id_ <- getitem "id" (ad_id auth_data) ;;
  successful_ <- getitem "successful" (ad_successful auth_data) ;;
  text <- getitem "timestamp" (ad_timestamp auth_data) ;;
  timestamp_ <- strptime text ;;
  Ok (mkAuthentication id_ username password successful_ timestamp_).

(** The body of [for entry in data['transcript']]. *)
Definition transcript_entity (entry : TranscriptData) : result Transcript :=
  text <- getitem "timestamp" (td_timestamp entry) ;;
  transcript_timestamp_ <- strptime text ;;
  direction_ <- getitem "direction" (td_direction entry) ;;
  data_ <- getitem "data" (td_data entry) ;;
  Ok (mkTranscript transcript_timestamp_ direction_ data_).

Definition login_attempts (data : Data) : result (list Authentication) :=
  attempts <- getitem "login_attempts" (d_login_attempts data) ;;
  for_each extract_auth_entity attempts.

(** [client.last_activity = datetime.now()] *)
Definition touch_client (cid : unicode) (t : datetime) (rows : list Client)
    : list Client :=
  map (fun c => if unicode_eqb (client_id c) cid then mkClient (client_id c) (Some t) else c)
      rows.

(** ** persist_session *)

(** Lines 114 to 123: the columns common to both kinds. *)
Definition set_common_columns (env : Env) (data : Data) (classification_ : string)
    (honeypot_ : unicode) (transcript_ : list Transcript)
    (authentication_ : list Authentication) (bait_ : option BaitColumns)
    : result Session :=
  id_ <- getitem "id" (d_id data) ;;
  text <- getitem "timestamp" (d_timestamp data) ;;
  timestamp_ <- strptime text ;;
  protocol_ <- getitem "protocol" (d_protocol data) ;;
  destination_ip_ <- getitem "destination_ip" (d_destination_ip data) ;;
  destination_port_ <- getitem "destination_port" (d_destination_port data) ;;
  source_ip_ <- getitem "source_ip" (d_source_ip data) ;;
  source_port_ <- getitem "source_port" (d_source_port data) ;;
  Ok (mkSession id_ classification_ timestamp_ (utcnow env) protocol_
        destination_ip_ destination_port_ source_ip_ source_port_ honeypot_
        authentication_ transcript_ [] bait_).

(** Lines 77 to 123: from the two lookups to the session ready to be added. *)
Definition stage_session (env : Env) (data : Data) (session_type : string)
    (db : Store) : result Staged :=
  classification_ <- query_classification db "pending" ;;
  honeypot_id <- getitem "honeypot_id" (d_honeypot_id data) ;;
  match honeypot_id with
  | None => Raise AssertionError
  | Some honeypot_id =>
      honeypot_ <- query_honeypot db honeypot_id ;;
      if String.eqb session_type SESSION_HONEYPOT then
        entries <- getitem "transcript" (d_transcript data) ;;
        transcript_ <- for_each transcript_entity entries ;;
        authentication_ <- login_attempts data ;;
        session <- set_common_columns env data classification_ honeypot_
                     transcript_ authentication_ None ;;
        Ok (staged session (clients db))
      else if String.eqb session_type SESSION_CLIENT then
        completed <- getitem "did_complete" (d_did_complete data) ;;
        if negb completed && ignore_failed_bait_session env then
          Ok ignored_failed_bait
        else
          cid <- getitem "client_id" (d_client_id data) ;;
          client_ <- query_client db cid ;;
          did_connect_ <- getitem "did_connect" (d_did_connect data) ;;
          did_login_ <- getitem "did_login" (d_did_login data) ;;
          did_complete_ <- getitem "did_complete" (d_did_complete data) ;;
          authentication_ <- login_attempts data ;;
          session <- set_common_columns env data classification_ honeypot_
                       [] authentication_
                       (Some (mkBaitColumns did_connect_ did_login_ did_complete_
                                (client_id client_))) ;;
          Ok (staged session (touch_client (client_id client_) (now env) (clients db)))
      else Ok unknown_message_type
  end.

(** [db_session.add(session); db_session.commit()].
    Modelled from the spec: the table declaration is not part of the sources;
    a session's identifier is unique across both variants, so the INSERT of a
    second row with the identifier of an existing one is refused. *)
Definition add_and_commit (session : Session) (clients' : list Client) (db : Store)
    : result Store :=
  match lookup_session (id session) (sessions db) with
  | Some _ => Raise IntegrityError
  | None =>
      Ok (mkStore (classifications db) (honeypots db) clients'
            (sessions db ++ [session]))
  end.

(** One arm of lines 128 to 135: the correlation pass, then the merge of the
    pair [(honeypot_session, bait_session)] when the pass found a match. *)
Definition correlate (session : Session) (db : Store)
    (pair : Session -> Session * Session) : Run :=
  match get_matching_session session db 5 with
  | Raise e => mkRun db [] (Raised e)
  | Ok None => mkRun db [] Returned
  | Ok (Some matching) =>
      let (honeypot_session, bait_session) := pair matching in
      let entries :=
        match format_merge_message honeypot_session bait_session with
        | Ok (bait_id, honeypot_id) => [debug_merge bait_id honeypot_id]
        | Raise _ => []
        end in
      match merge_bait_and_session honeypot_session bait_session db with
      | Raise e => mkRun db entries (Raised e)
      | Ok db' => mkRun db' entries Returned
      end
  end.

(** Lines 128 to 135. *)
Definition correlate_and_merge (session : Session) (session_type : string)
    (db : Store) : Run :=
  if String.eqb session_type SESSION_HONEYPOT then
    correlate session db (fun matching_bait_session => (session, matching_bait_session))
  else if String.eqb session_type SESSION_CLIENT then
    correlate session db (fun matching_honeypot_session => (matching_honeypot_session, session))
  else mkRun db [] Returned.

(** [persist_session] from line 75 on, [data] being decoded. *)
Definition persist_data (env : Env) (data : Data) (session_type : string)
    (db : Store) : Run :=
  let entry := debug_persisting session_type in
  match stage_session env data session_type db with
  | Raise e => mkRun db [entry] (Raised e)
  | Ok ignored_failed_bait =>
      mkRun db [entry; debug_ignore_failed_bait_session] Returned
  | Ok unknown_message_type =>
      mkRun db [entry; warn_unknown_message_type session_type] Returned
  | Ok (staged session clients') =>
      match add_and_commit session clients' db with
      | Raise e => mkRun db [entry] (Raised e)
      | Ok db' =>
          let r := correlate_and_merge session session_type db' in
          mkRun (store r) (entry :: log r) (outcome r)
      end
  end.

(** Lines 71 to 74: only [UnicodeDecodeError] is caught. *)
Definition decode_payload (session_json : string) : result Data :=
  match json_loads_str session_json with
  | Raise UnicodeDecodeError => json_loads_unicode (latin1_decode session_json)
  | loaded => loaded
  end.

Definition persist_session (env : Env) (session_json session_type : string)
    (db : Store) : Run :=
  match decode_payload session_json with
  | Raise e => mkRun db [] (Raised e)
  | Ok data => persist_data env data session_type db
  end.

(** ** _run *)

(** [message.split(' ', 1)] unpacked into two names: a message without a
    space raises [ValueError]. *)
Fixpoint split_topic (message : string) : result (string * string) :=
  match message with
  | EmptyString => Raise ValueError
  | String c rest =>
      if Ascii.eqb c " "%char then Ok (EmptyString, rest)
      else
        parts <- split_topic rest ;;
        Ok (String c (fst parts), snd parts)
  end.

(** The loop over the messages the subscriber socket delivers, each with what
    its processing reads from outside.  The loop has no exception handler:
    the first exception ends it, and the messages after it are not read.
    [Returned] after the last message of the list means the loop is still
    polling. *)
Fixpoint _run (feed : list (Env * string)) (db : Store) : Run :=
  match feed with
  | [] => mkRun db [] Returned
  | (env, message) :: rest =>
      match split_topic message with
      | Raise e => mkRun db [] (Raised e)
      | Ok (topic, session_json) =>
          let r := persist_session env session_json topic db in
          match outcome r with
          | Raised e => r
          | Returned =>
              let r' := _run rest (store r) in
              mkRun (store r') (log r ++ log r') (outcome r')
          end
      end
  end.

End Persister.

(** ** __init__ *)

Inductive InfoRecord : Type :=
| info_cleaned (pending_deleted : nat)
| info_deleting (count : nat).

(** The committed store, the [logging.info] lines and the way the database
    part of the constructor ended. *)
Record Startup : Type := mkStartup {
  startup_store : Store;
  startup_log : list InfoRecord;
  startup_outcome : Outcome
}.

(** [Session.classification == pending_classification] *)
Definition classified (label : string) (s : Session) : bool :=
  String.eqb (classification s) label.

(** Lines 40 to 49: the pending sessions are deleted and the deletion is
    committed; with [clear_sessions] every session that is left is deleted
    too.  [Query.delete()] returns the number of rows it matched. *)
Definition __init__ (clear_sessions : bool) (db : Store) : Startup :=
  match query_classification db "pending" with
  | Raise e => mkStartup db [] (Raised e)
  | Ok pending_classification =>
      let pending_deleted :=
        List.length (filter (classified pending_classification) (sessions db)) in
      let db' :=
        with_sessions db
          (filter (fun s => negb (classified pending_classification s)) (sessions db)) in
      let entry := info_cleaned pending_deleted in
      if clear_sessions then
        let count := List.length (sessions db') in
        mkStartup (with_sessions db' []) [entry; info_deleting count] Returned
      else mkStartup db' [entry] Returned
  end.

(** A byte string holds a space. *)
Fixpoint has_space (s : string) : bool :=
  match s with
  | EmptyString => false
  | String c rest => Ascii.eqb c " "%char || has_space rest
  end.

(** The identifiers of the session table are pairwise distinct. *)
Definition unique_ids (rows : list Session) : Prop := NoDup (map id rows).

(** ** A reference instance of the imports

    Executable stand-ins for [json.loads] and [datetime.strptime], used to
    run the persister on concrete messages.  They accept fewer inputs than
    the Python functions ([reference_loads] reads integers as the only
    numbers and only documents with the fields of the interface;
    [reference_strptime] reads the fixed-width form of the format), and on
    what they accept they answer as the Python functions do. *)
Module Reference.

#[local] Unset Elimination Schemes.
Inductive json : Type :=
| JNull
| JBool (b : bool)
| JNumber (n : Z)
| JString (s : unicode)
| JArray (items : list json)
| JObject (members : list (unicode * json)).
#[local] Set Elimination Schemes.

Definition is_digit (c : N) : bool := (48 <=? c)%N && (c <=? 57)%N.

Definition is_whitespace (c : N) : bool :=
  (c =? 32)%N || (c =? 9)%N || (c =? 10)%N || (c =? 13)%N.

Fixpoint skip_whitespace (s : list N) : list N :=
  match s with
  | c :: rest => if is_whitespace c then skip_whitespace rest else s
  | [] => []
  end.

Definition is_continuation (c : N) : bool := (128 <=? c)%N && (c <=? 191)%N.

(** Strict UTF-8 decoding of a run of bytes. *)
Fixpoint utf8_decode (bytes : list N) : result unicode :=
  match bytes with
  | [] => Ok []
  | b :: rest =>
      if (b <? 128)%N then
        tail <- utf8_decode rest ;; Ok (b :: tail)
      else if (194 <=? b)%N && (b <=? 223)%N then
        match rest with
        | c1 :: rest1 =>
            if is_continuation c1 then
              tail <- utf8_decode rest1 ;;
              Ok (((b - 192) * 64 + (c1 - 128))%N :: tail)
            else Raise UnicodeDecodeError
        | _ => Raise UnicodeDecodeError
        end
      else if (224 <=? b)%N && (b <=? 239)%N then
        match rest with
        | c1 :: c2 :: rest2 =>
            if is_continuation c1 && is_continuation c2
               && implb (b =? 224)%N (160 <=? c1)%N then
              tail <- utf8_decode rest2 ;;
              Ok (((b - 224) * 4096 + (c1 - 128) * 64 + (c2 - 128))%N :: tail)
            else Raise UnicodeDecodeError
        | _ => Raise UnicodeDecodeError
        end
      else if (240 <=? b)%N && (b <=? 244)%N then
        match rest with
        | c1 :: c2 :: c3 :: rest3 =>
            if is_continuation c1 && is_continuation c2 && is_continuation c3
               && implb (b =? 240)%N (144 <=? c1)%N
               && implb (b =? 244)%N (c1 <=? 143)%N then
              tail <- utf8_decode rest3 ;;
              Ok (((b - 240) * 262144 + (c1 - 128) * 4096
                   + (c2 - 128) * 64 + (c3 - 128))%N :: tail)
            else Raise UnicodeDecodeError
        | _ => Raise UnicodeDecodeError
        end
      else Raise UnicodeDecodeError
  end.

Definition hex_value (c : N) : option N :=
  if is_digit c then Some (c - 48)%N
  else if (97 <=? c)%N && (c <=? 102)%N then Some (c - 87)%N
  else if (65 <=? c)%N && (c <=? 70)%N then Some (c - 55)%N
  else None.

(** The one-letter escapes: quote, backslash, slash, b, f, n, r, t. *)
Definition simple_escape (c : N) : option N :=
  if (c =? 34)%N then Some 34%N
  else if (c =? 92)%N then Some 92%N
  else if (c =? 47)%N then Some 47%N
  else if (c =? 98)%N then Some 8%N
  else if (c =? 102)%N then Some 12%N
  else if (c =? 110)%N then Some 10%N
  else if (c =? 114)%N then Some 13%N
  else if (c =? 116)%N then Some 9%N
  else None.

(** The scanner of a string literal, after its opening quote.  [chunk] is the
    run of raw characters read since the last escape, in reverse; a run is
    decoded with [decode] when it ends. *)
Fixpoint scan_string (decode : list N -> result unicode) (s : list N)
    (chunk : list N) (text : unicode) : result (unicode * list N) :=
  match s with
  | [] => Raise ValueError
  | c :: rest =>
      if (c =? 34)%N then
        run <- decode (rev chunk) ;;
        Ok (text ++ run, rest)
      else if (c =? 92)%N then
        run <- decode (rev chunk) ;;
        match rest with
        | e :: rest1 =>
            match simple_escape e with
            | Some code => scan_string decode rest1 [] (text ++ run ++ [code])
            | None =>
                if (e =? 117)%N then
                  match rest1 with
                  | h1 :: h2 :: h3 :: h4 :: rest2 =>
                      match hex_value h1, hex_value h2, hex_value h3, hex_value h4 with
                      | Some a, Some b, Some c', Some d =>
                          scan_string decode rest2 []
                            (text ++ run ++ [(a * 4096 + b * 256 + c' * 16 + d)%N])
                      | _, _, _, _ => Raise ValueError
                      end
                  | _ => Raise ValueError
                  end
                else Raise ValueError
            end
        | [] => Raise ValueError
        end
      else if (c <? 32)%N then Raise ValueError
      else scan_string decode rest (c :: chunk) text
  end.

Fixpoint scan_digits (s : list N) (value : Z) : Z * list N :=
  match s with
  | c :: rest =>
      if is_digit c then scan_digits rest (value * 10 + Z.of_N (c - 48)) else (value, s)
  | [] => (value, [])
  end.

Definition scan_number (s : list N) : result (json * list N) :=
  match s with
  | 45%N :: c :: rest =>
      if is_digit c then
        let (v, rest') := scan_digits (c :: rest) 0 in Ok (JNumber (- v), rest')
      else Raise ValueError
  | c :: rest =>
      if is_digit c then
        let (v, rest') := scan_digits (c :: rest) 0 in Ok (JNumber v, rest')
      else Raise ValueError
  | [] => Raise ValueError
  end.

Fixpoint expect (word : list N) (s : list N) : option (list N) :=
  match word, s with
  | [], _ => Some s
  | w :: word', c :: rest => if (w =? c)%N then expect word' rest else None
  | _ :: _, [] => None
  end.

Definition scan_literal (s : list N) : result (json * list N) :=
  match expect (latin1_decode "null") s with
  | Some rest => Ok (JNull, rest)
  | None =>
      match expect (latin1_decode "true") s with
      | Some rest => Ok (JBool true, rest)
      | None =>
          match expect (latin1_decode "false") s with
          | Some rest => Ok (JBool false, rest)
          | None => scan_number s
          end
      end
  end.

Section Scanner.

Variable decode : list N -> result unicode.

Fixpoint scan_value (fuel : nat) (s : list N) {struct fuel}
    : result (json * list N) :=
  match fuel with
  | O => Raise ValueError
  | S fuel' =>
      match skip_whitespace s with
      | 34%N :: rest =>
          parsed <- scan_string decode rest [] [] ;;
          Ok (JString (fst parsed), snd parsed)
      | 91%N :: rest =>
          match skip_whitespace rest with
          | 93%N :: rest' => Ok (JArray [], rest')
          | _ =>
              parsed <- scan_items fuel' rest ;;
              Ok (JArray (fst parsed), snd parsed)
          end
      | 123%N :: rest =>
          match skip_whitespace rest with
          | 125%N :: rest' => Ok (JObject [], rest')
          | _ =>
              parsed <- scan_members fuel' rest ;;
              Ok (JObject (fst parsed), snd parsed)
          end
      | s' => scan_literal s'
      end
  end
with scan_items (fuel : nat) (s : list N) {struct fuel}
    : result (list json * list N) :=
  match fuel with
  | O => Raise ValueError
  | S fuel' =>
      item <- scan_value fuel' s ;;
      match skip_whitespace (snd item) with
      | 44%N :: rest =>
          more <- scan_items fuel' rest ;;
          Ok (fst item :: fst more, snd more)
      | 93%N :: rest => Ok ([fst item], rest)
      | _ => Raise ValueError
      end
  end
with scan_members (fuel : nat) (s : list N) {struct fuel}
    : result (list (unicode * json) * list N) :=
  match fuel with
  | O => Raise ValueError
  | S fuel' =>
      match skip_whitespace s with
      | 34%N :: rest =>
          key <- scan_string decode rest [] [] ;;
          match skip_whitespace (snd key) with
          | 58%N :: rest' =>
              value <- scan_value fuel' rest' ;;
              match skip_whitespace (snd value) with
              | 44%N :: rest'' =>
                  more <- scan_members fuel' rest'' ;;
                  Ok ((fst key, fst value) :: fst more, snd more)
              | 125%N :: rest'' => Ok ([(fst key, fst value)], rest'')
              | _ => Raise ValueError
              end
          | _ => Raise ValueError
          end
      | _ => Raise ValueError
      end
  end.

Definition scan_document (s : list N) : result json :=
  parsed <- scan_value (2 * List.length s + 2) s ;;
  match skip_whitespace (snd parsed) with
  | [] => Ok (fst parsed)
  | _ :: _ => Raise ValueError
  end.

End Scanner.

(** *** The typed view of a document *)

(** [d.get(key)] on the members of an object; the last occurrence of a key
    wins, as in a Python dict. *)
Fixpoint member (key : unicode) (members : list (unicode * json)) : option json :=
  match members with
  | [] => None
  | (k, v) :: rest =>
      match member key rest with
      | Some v' => Some v'
      | None => if unicode_eqb k key then Some v else None
      end
  end.

Definition field {A : Type} (read : json -> result A) (key : string)
    (members : list (unicode * json)) : result (option A) :=
  match member (latin1_decode key) members with
  | None => Ok None
  | Some v => a <- read v ;; Ok (Some a)
  end.

Definition read_text (v : json) : result unicode :=
  match v with JString s => Ok s | _ => Raise ValueError end.

Definition read_nullable_text (v : json) : result (option unicode) :=
  match v with
  | JString s => Ok (Some s)
  | JNull => Ok None
  | _ => Raise ValueError
  end.

Definition read_bool (v : json) : result bool :=
  match v with JBool b => Ok b | _ => Raise ValueError end.

Definition read_int (v : json) : result Z :=
  match v with JNumber n => Ok n | _ => Raise ValueError end.

Definition read_list {A : Type} (read : json -> result A) (v : json)
    : result (list A) :=
  match v with JArray items => for_each read items | _ => Raise ValueError end.

Definition read_transcript_entry (v : json) : result TranscriptData :=
  match v with
  | JObject members =>
      timestamp_ <- field read_text "timestamp" members ;;
      direction_ <- field read_text "direction" members ;;
      data_ <- field read_text "data" members ;;
      Ok (mkTranscriptData timestamp_ direction_ data_)
  | _ => Raise ValueError
  end.

Definition read_login_attempt (v : json) : result AuthData :=
  match v with
  | JObject members =>
      id_ <- field read_text "id" members ;;
      username_ <- field read_text "username" members ;;
      password_ <- field read_text "password" members ;;
      successful_ <- field read_bool "successful" members ;;
      timestamp_ <- field read_text "timestamp" members ;;
      Ok (mkAuthData id_ username_ password_ successful_ timestamp_)
  | _ => Raise ValueError
  end.

Definition read_data (v : json) : result Data :=
  match v with
  | JObject members =>
      id_ <- field read_text "id" members ;;
      timestamp_ <- field read_text "timestamp" members ;;
      protocol_ <- field read_text "protocol" members ;;
      destination_ip_ <- field read_text "destination_ip" members ;;
      destination_port_ <- field read_int "destination_port" members ;;
      source_ip_ <- field read_text "source_ip" members ;;
      source_port_ <- field read_int "source_port" members ;;
      honeypot_id_ <- field read_nullable_text "honeypot_id" members ;;
      transcript_ <- field (read_list read_transcript_entry) "transcript" members ;;
      login_attempts_ <- field (read_list read_login_attempt) "login_attempts" members ;;
      client_id_ <- field read_text "client_id" members ;;
      did_connect_ <- field read_bool "did_connect" members ;;
      did_login_ <- field read_bool "did_login" members ;;
      did_complete_ <- field read_bool "did_complete" members ;;
      Ok (mkData id_ timestamp_ protocol_ destination_ip_ destination_port_
            source_ip_ source_port_ honeypot_id_ transcript_ login_attempts_
            client_id_ did_connect_ did_login_ did_complete_)
  | _ => Raise ValueError
  end.

Definition reference_loads (decode : list N -> result unicode) (s : list N)
    : result Data :=
  document <- scan_document decode s ;;
  read_data document.

(** *** strptime *)

(** Exactly [n] digits. *)
Fixpoint take_number (n : nat) (s : list N) (value : Z) : option (Z * list N) :=
  match n with
  | O => Some (value, s)
  | S n' =>
      match s with
      | c :: rest =>
          if is_digit c then take_number n' rest (value * 10 + Z.of_N (c - 48))
          else None
      | [] => None
      end
  end.

Definition take_char (c : N) (s : list N) : option (list N) :=
  match s with
  | c' :: rest => if (c =? c')%N then Some rest else None
  | [] => None
  end.

(** [%f]: one to six digits, read as a fraction of a second. *)
Definition take_fraction (s : list N) : option Z :=
  let n := List.length s in
  if ((1 <=? n) && (n <=? 6))%nat then
    match take_number n s 0 with
    | Some (v, _) => Some (v * 10 ^ Z.of_nat (6 - n))
    | None => None
    end
  else None.

Definition is_leap (y : Z) : bool :=
  ((y mod 4 =? 0) && negb (y mod 100 =? 0)) || (y mod 400 =? 0).

Definition days_in_month (y m : Z) : Z :=
  if m =? 2 then (if is_leap y then 29 else 28)
  else if (m =? 4) || (m =? 6) || (m =? 9) || (m =? 11) then 30
  else 31.

Definition days_before_month (y m : Z) : Z :=
  nth (Z.to_nat (m - 1)) [0; 31; 59; 90; 120; 151; 181; 212; 243; 273; 304; 334] 0
  + (if (2 <? m) && is_leap y then 1 else 0).

(** The days from 0001-01-01 to the given date. *)
Definition days_before (y m d : Z) : Z :=
  let y' := y - 1 in
  365 * y' + y' / 4 - y' / 100 + y' / 400 + days_before_month y m + (d - 1).

Definition option_bind {A B : Type} (o : option A) (k : A -> option B) : option B :=
  match o with Some a => k a | None => None end.

Definition parse_timestamp (text : unicode) : option datetime :=
  option_bind (take_number 4 text 0) (fun '(y, s) =>
  option_bind (take_char 45 s) (fun s =>
  option_bind (take_number 2 s 0) (fun '(m, s) =>
  option_bind (take_char 45 s) (fun s =>
  option_bind (take_number 2 s 0) (fun '(d, s) =>
  option_bind (take_char 84 s) (fun s =>
  option_bind (take_number 2 s 0) (fun '(hh, s) =>
  option_bind (take_char 58 s) (fun s =>
  option_bind (take_number 2 s 0) (fun '(mm, s) =>
  option_bind (take_char 58 s) (fun s =>
  option_bind (take_number 2 s 0) (fun '(ss, s) =>
  option_bind (take_char 46 s) (fun s =>
  option_bind (take_fraction s) (fun us =>
  if (1 <=? y) && (1 <=? m) && (m <=? 12) && (1 <=? d) && (d <=? days_in_month y m)
     && (hh <=? 23) && (mm <=? 59) && (ss <=? 59)
  then Some ((((days_before y m d * 24 + hh) * 60 + mm) * 60 + ss) * 1000000 + us)
  else None))))))))))))).

Definition reference_strptime (text : unicode) : result datetime :=
  match parse_timestamp text with
  | Some t => Ok t
  | None => Raise ValueError
  end.

Definition imports : Imports := {|
  SESSION_HONEYPOT := "SESSION_HONEYPOT";
  SESSION_CLIENT := "SESSION_CLIENT";
  strptime := reference_strptime;
  json_loads_str := fun s => reference_loads utf8_decode (latin1_decode s);
  json_loads_unicode := fun s => reference_loads (fun run => Ok run) s
|}.

End Reference.

(** ** The conditions of the correlator, as propositions *)

(** An Authentication attempt of [M] equals one of [S] by username, password
    and success flag. *)
Definition shares_credentials (S M : Session) : Prop :=
  exists honey_auth session_auth,
    In honey_auth (authentication S) /\ In session_auth (authentication M)
    /\ username session_auth = username honey_auth
    /\ password session_auth = password honey_auth
    /\ successful session_auth = successful honey_auth.

(** [M] is a match of [S] for the window of [timediff] seconds. *)
Definition matches (timediff : Z) (S M : Session) : Prop :=
  protocol M = protocol S
  /\ honeypot M = honeypot S
  /\ discriminator M <> discriminator S
  /\ id M <> id S
  /\ timestamp S - seconds timediff <= timestamp M <= timestamp S + seconds timediff
  /\ shares_credentials S M.

(** Both ends of the window of [S] are datetimes. *)
Definition window_in_range (timediff : Z) (S : Session) : Prop :=
  datetime_min <= timestamp S - seconds timediff
  /\ timestamp S + seconds timediff <= datetime_max.

Definition has_matching_auth (S M : Session) : bool :=
  existsb (fun honey_auth =>
             existsb (fun session_auth => auth_equal session_auth honey_auth)
                     (authentication M))
          (authentication S).

(** What the outer loop leaves in [match]: the candidates are scanned in
    order and each one with a matching attempt overwrites it. *)
Definition retain (S : Session) (m : option Session) (candidate : Session)
    : option Session :=
  if has_matching_auth S candidate then Some candidate else m.

(** The last candidate, in enumeration order, with a matching attempt. *)
Definition last_match (S : Session) (candidates : list Session) : option Session :=
  find (has_matching_auth S) (rev candidates).

Definition set_classification (label : Session -> string) (s : Session) : Session :=
  mkSession (id s) (label s) (timestamp s) (received s) (protocol s)
    (destination_ip s) (destination_port s) (source_ip s) (source_port s)
    (honeypot s) (authentication s) (transcript s) (session_data s) (bait s).

(** The store with every session relabelled by [label]. *)
Definition reclassify (label : Session -> string) (db : Store) : Store :=
  with_sessions db (map (set_classification label) (sessions db)).



(** The exception a record owes to its honeypot reference: the key is
    absent, the value is null, or no row of the store has that id. *)
Definition honeypot_reference_error (data : Data) (db : Store) : option exn :=
  match d_honeypot_id data with
  | None => Some (KeyError "honeypot_id")
  | Some None => Some AssertionError
  | Some (Some h) =>
      if existsb (unicode_eqb h) (honeypots db) then None else Some NoResultFound
  end.

(** ** Sample messages *)

Module Samples.

(** Payloads are written with an apostrophe for the double quote of JSON and
    a tilde for the byte 0xFF. *)
Fixpoint payload_of (s : string) : string :=
  match s with
  | EmptyString => EmptyString
  | String c rest =>
      String (if Ascii.eqb c "'"%char then ascii_of_N 34
              else if Ascii.eqb c "~"%char then ascii_of_N 255
              else c)
             (payload_of rest)
  end.

Definition u (s : string) : unicode := latin1_decode s.

Definition env0 : Env := mkEnv 1000 2000 false.
Definition env_ignore : Env := mkEnv 1000 2000 true.

Definition db0 : Store :=
  mkStore ["pending"; "bait_session"; "bruteforce"] [u "hp"]
    [mkClient (u "c1") None] [].

Definition honeypot_payload (sid hhmmss data : string) : string :=
  payload_of
    ("{'id': '" ++ sid ++ "', 'timestamp': '2014-05-01T" ++ hhmmss ++ "', "
     ++ "'protocol': 'ssh', 'destination_ip': '10.0.0.1', 'destination_port': 22, "
     ++ "'source_ip': '10.0.0.9', 'source_port': 4000, 'honeypot_id': 'hp', "
     ++ "'transcript': [{'timestamp': '2014-05-01T" ++ hhmmss ++ "', "
     ++ "'direction': 'in', 'data': '" ++ data ++ "'}], "
     ++ "'login_attempts': [{'id': 'a-" ++ sid ++ "', 'username': 'u', "
     ++ "'password': 'p', 'successful': true, "
     ++ "'timestamp': '2014-05-01T" ++ hhmmss ++ "'}]}")%string.

Definition bait_payload (sid hhmmss completed : string) : string :=
  payload_of
    ("{'id': '" ++ sid ++ "', 'timestamp': '2014-05-01T" ++ hhmmss ++ "', "
     ++ "'protocol': 'ssh', 'destination_ip': '10.0.0.1', 'destination_port': 22, "
     ++ "'source_ip': '10.0.0.7', 'source_port': 5000, 'honeypot_id': 'hp', "
     ++ "'client_id': 'c1', 'did_connect': true, 'did_login': true, "
     ++ "'did_complete': " ++ completed ++ ", "
     ++ "'login_attempts': [{'id': 'a-" ++ sid ++ "', 'username': 'u', "
     ++ "'password': 'p', 'successful': true, "
     ++ "'timestamp': '2014-05-01T" ++ hhmmss ++ "'}]}")%string.

Definition message (topic payload : string) : string :=
  (topic ++ " " ++ payload)%string.

(** An honeypot session at 10:00:00, a bait session three seconds later. *)
Definition h1 : string := honeypot_payload "h1" "10:00:00.000000" "ls".
Definition b1 : string := bait_payload "b1" "10:00:03.000000" "true".
(** A second honeypot session inside the window of [b1]. *)
Definition h2 : string := honeypot_payload "h2" "10:00:04.000000" "pwd".
(** A bait session that did not complete, and a bait record that says so
    and nothing else. *)
Definition b_failed : string := bait_payload "b2" "10:00:03.000000" "false".
(** A payload that is not UTF-8 and, read as Latin-1, not JSON: the four
    bytes 5B 22 FF 22. *)
Definition not_json : string := payload_of "['~'".
(** A payload that is not UTF-8 and, read as Latin-1, a record. *)
Definition latin1_record : string :=
  payload_of "{'id': 'caf~', 'honeypot_id': 'hp'}".

(** *** Sessions for the correlator *)

Definition attempt (user pass : string) (ok : bool) : Authentication :=
  mkAuthentication (u "a") (u user) (u pass) ok 0.

(** 2014-05-01T10:00:00, in microseconds. *)
Definition ten_o_clock : datetime := 63534535200000000.

Definition honeypot_session (sid : string) (t : datetime)
    (attempts : list Authentication) : Session :=
  mkSession (u sid) "pending" t 0 (u "ssh") (u "10.0.0.1") 22 (u "10.0.0.9") 4000
    (u "hp") attempts [mkTranscript t (u "in") (u sid)] [] None.

Definition bait_session (sid : string) (label : string) (t : datetime)
    (attempts : list Authentication) : Session :=
  mkSession (u sid) label t 0 (u "ssh") (u "10.0.0.1") 22 (u "10.0.0.7") 5000
    (u "hp") attempts [] []
    (Some (mkBaitColumns true true true (u "c1"))).

Definition base : Session :=
  honeypot_session "s" ten_o_clock [attempt "u" "p" true].

(** Bait sessions exactly five seconds before and after [base], one
    millisecond further, and ones whose attempt differs by the success
    flag or by the case of the username. *)
Definition at_minus_5s : Session :=
  bait_session "m5" "pending" (ten_o_clock - 5000000) [attempt "u" "p" true].
Definition at_plus_5s : Session :=
  bait_session "p5" "bait_session" (ten_o_clock + 5000000) [attempt "u" "p" true].
Definition at_plus_5001ms : Session :=
  bait_session "late" "pending" (ten_o_clock + 5001000) [attempt "u" "p" true].
Definition at_minus_5001ms : Session :=
  bait_session "early" "pending" (ten_o_clock - 5001000) [attempt "u" "p" true].
Definition failed_login : Session :=
  bait_session "f" "pending" ten_o_clock [attempt "u" "p" false].
Definition other_case : Session :=
  bait_session "c" "pending" ten_o_clock [attempt "U" "p" true].
Definition same_kind : Session :=
  honeypot_session "k" ten_o_clock [attempt "u" "p" true].

Definition with_rows (rows : list Session) : Store := with_sessions db0 rows.

Definition run_of (feed : list (Env * string)) (db : Store) : Run :=
  @_run Reference.imports feed db.

(** *** Decoded records and stores along a run *)

Definition empty_data : Data :=
  mkData None None None None None None None None None None None None None None.

Definition decoded (payload : string) : Data :=
  match @decode_payload Reference.imports payload with
  | Ok data => data
  | Raise _ => empty_data
  end.

Definition data_h1 : Data := Eval vm_compute in decoded h1.
Definition data_b1 : Data := Eval vm_compute in decoded b1.
Definition data_b_failed : Data := Eval vm_compute in decoded b_failed.

(** The store after [h1] alone, after [b1] alone, and after [b1] then [h1]. *)
Definition db_h1 : Store :=
  Eval vm_compute in store (run_of [(env0, message "SESSION_HONEYPOT" h1)] db0).
Definition db_b1 : Store :=
  Eval vm_compute in store (run_of [(env0, message "SESSION_CLIENT" b1)] db0).
Definition db_b1_h1 : Store :=
  Eval vm_compute in
    store (run_of [(env0, message "SESSION_CLIENT" b1);
                   (env0, message "SESSION_HONEYPOT" h1)] db0).

(** The session [persist_session] has staged when it reaches
    [db_session.add], and the store once it is committed. *)
Definition staged_session (env : Env) (data : Data) (topic : string)
    (db : Store) : Session :=
  match @stage_session Reference.imports env data topic db with
  | Ok (staged s _) => s
  | _ => base
  end.

Definition committed (s : Session) (clients' : list Client) (db : Store) : Store :=
  match add_and_commit s clients' db with
  | Ok db' => db'
  | Raise _ => db
  end.

Definition touched : list Client := [mkClient (u "c1") (Some 1000)].

(** [b1] arriving after [h1]. *)
Definition s_b1 : Session :=
  Eval vm_compute in staged_session env0 data_b1 "SESSION_CLIENT" db_h1.
Definition row_h1 : Session := Eval vm_compute in hd base (sessions db_h1).
Definition db_h1_then_b1 : Store := Eval vm_compute in committed s_b1 touched db_h1.

(** [h1] arriving after [b1]. *)
Definition s_h1 : Session :=
  Eval vm_compute in staged_session env0 data_h1 "SESSION_HONEYPOT" db_b1.
Definition row_b1 : Session := Eval vm_compute in hd base (sessions db_b1).
Definition db_b1_then_h1 : Store := Eval vm_compute in committed s_h1 touched db_b1.

(** A bait session seven seconds after [h1], outside its window. *)
Definition b7 : string := bait_payload "b7" "10:00:07.000000" "true".
Definition data_b7 : Data := Eval vm_compute in decoded b7.
Definition s_b7 : Session :=
  Eval vm_compute in staged_session env0 data_b7 "SESSION_CLIENT" db_h1.
Definition db_h1_then_b7 : Store := Eval vm_compute in committed s_b7 touched db_h1.

(** The identifier, the classification and the transcript data of a row. *)
Definition summary (s : Session) : unicode * string * list unicode :=
  (id s, classification s, map transcript_data (transcript s)).

(** Records without a usable honeypot reference. *)
Definition no_reference : string := payload_of "{}".
Definition null_reference : string := payload_of "{'honeypot_id': null}".
Definition unknown_reference : string := payload_of "{'honeypot_id': 'nope'}".
Definition data_no_reference : Data := Eval vm_compute in decoded no_reference.
Definition data_null_reference : Data := Eval vm_compute in decoded null_reference.
Definition data_unknown_reference : Data :=
  Eval vm_compute in decoded unknown_reference.
Definition data_latin1_record : Data := Eval vm_compute in decoded latin1_record.

(** *** Stores and records for the further properties *)

(** A store whose sessions are [pending], [bait_session] and [pending]. *)
Definition db_mixed : Store := with_rows [at_minus_5s; at_plus_5s; failed_login].

(** A store without the [pending] classification. *)
Definition db_unlabelled : Store :=
  mkStore ["bait_session"; "bruteforce"] [u "hp"] [] [at_minus_5s; at_plus_5s].

(** A session two seconds after the first datetime, and bait sessions one
    second before and after it. *)
Definition at_dawn : Session := honeypot_session "d" 2000000 [attempt "u" "p" true].
Definition dawn_bait_1 : Session :=
  bait_session "d1" "pending" 1000000 [attempt "u" "p" true].
Definition dawn_bait_2 : Session :=
  bait_session "d2" "pending" 3000000 [attempt "u" "p" true].

(** The store after [b1] without the [bait_session] classification, and
    [h1] arriving there. *)
Definition db_b1_unlabelled : Store :=
  mkStore ["pending"] [u "hp"] touched [row_b1].
Definition s_h1_unlabelled : Session :=
  Eval vm_compute in
    staged_session env0 data_h1 "SESSION_HONEYPOT" db_b1_unlabelled.
Definition db_b1_unlabelled_then_h1 : Store :=
  Eval vm_compute in committed s_h1_unlabelled touched db_b1_unlabelled.

(** A honeypot record like [h1] whose identifier ends in the byte 0xFF,
    arriving after [b1]. *)
Definition h_latin1 : string := honeypot_payload "h~" "10:00:00.000000" "ls".
Definition data_h_latin1 : Data := Eval vm_compute in decoded h_latin1.
Definition s_h_latin1 : Session :=
  Eval vm_compute in staged_session env0 data_h_latin1 "SESSION_HONEYPOT" db_b1.
Definition db_b1_then_h_latin1 : Store :=
  Eval vm_compute in committed s_h_latin1 touched db_b1.

(** A store without clients. *)
Definition db_no_clients : Store :=
  mkStore ["pending"; "bait_session"] [u "hp"] [] [].

(** Login attempts that differ by their [id] and timestamp, the first
    without a username. *)
Definition attempt_without_username : AuthData :=
  mkAuthData (Some (u "a1")) None (Some (u "p")) (Some true)
    (Some (u "2014-05-01T10:00:00.000000")).
Definition attempt_with_empty_username : AuthData :=
  mkAuthData (Some (u "a2")) (Some []) (Some (u "p")) (Some true)
    (Some (u "2014-05-01T10:00:03.000000")).

End Samples.

(** * Properties *)

(** ** Equality tests *)

Lemma unicode_eqb_eq (a b : unicode) : unicode_eqb a b = true <-> a = b.
Proof.
  revert b; induction a as [|x a IH]; intros [|y b]; simpl;
    try (split; [discriminate | congruence || discriminate]); [tauto|].
  rewrite andb_true_iff, N.eqb_eq, IH.
  split; [intros [-> ->]; reflexivity | intros E; inversion E; auto].
Qed.

Lemma unicode_eqb_refl (a : unicode) : unicode_eqb a a = true.
Proof. apply unicode_eqb_eq; reflexivity. Qed.

Lemma unicode_eqb_neq (a b : unicode) : unicode_eqb a b = false <-> a <> b.
Proof.
  rewrite <- unicode_eqb_eq. destruct (unicode_eqb a b); split; congruence.
Qed.

Lemma sql_ne_spec (column value : option string) :
  sql_ne column value = true <-> column <> None /\ column <> value.
Proof.
  destruct value as [v|], column as [c|]; simpl;
    try (split; [discriminate | intros [H1 H2]; congruence]);
    try (split; [intros _; split; discriminate | reflexivity]).
  rewrite negb_true_iff, String.eqb_neq.
  split; [intros H; split; congruence | intros [_ H]; congruence].
Qed.

Lemma auth_equal_spec (session_auth honey_auth : Authentication) :
  auth_equal session_auth honey_auth = true
  <-> username session_auth = username honey_auth
      /\ password session_auth = password honey_auth
      /\ successful session_auth = successful honey_auth.
Proof.
  unfold auth_equal.
  rewrite !andb_true_iff, !unicode_eqb_eq, Bool.eqb_true_iff. tauto.
Qed.

Lemma has_matching_auth_spec (S M : Session) :
  has_matching_auth S M = true <-> shares_credentials S M.
Proof.
  unfold has_matching_auth, shares_credentials. rewrite existsb_exists. split.
  - intros (ha & Hha & Hex). apply existsb_exists in Hex as (sa & Hsa & Heq).
    apply auth_equal_spec in Heq. exists ha, sa. tauto.
  - intros (ha & sa & Hha & Hsa & Heq). exists ha. split; [assumption|].
    apply existsb_exists. exists sa. split; [assumption|].
    apply auth_equal_spec. tauto.
Qed.

Lemma candidate_filter_spec (S M : Session) (lo hi : datetime) :
  candidate_filter S lo hi M = true
  <-> protocol M = protocol S /\ honeypot M = honeypot S
      /\ discriminator M <> None
      /\ discriminator M <> discriminator S /\ id M <> id S
      /\ lo <= timestamp M <= hi.
Proof.
  unfold candidate_filter.
  rewrite !andb_true_iff, !negb_true_iff, !unicode_eqb_eq, unicode_eqb_neq,
    !Z.leb_le, sql_ne_spec.
  tauto.
Qed.

Lemma candidate_query_In (S M : Session) (db : Store) (lo hi : datetime) :
  In M (candidate_query S db lo hi)
  <-> In M (sessions db) /\ candidate_filter S lo hi M = true.
Proof. unfold candidate_query. apply filter_In. Qed.

(** ** The three loops of get_matching_session *)

Lemma scan_session_auths_ok (S pm : Session) (honey_auth : Authentication)
    (auths : list Authentication) (m : option Session) :
  id pm <> id S ->
  scan_session_auths S pm honey_auth auths m
  = Ok (if existsb (fun session_auth => auth_equal session_auth honey_auth) auths
        then Some pm else m).
Proof.
  intros Hid. apply unicode_eqb_neq in Hid.
  induction auths as [|sa auths IH]; simpl; [reflexivity|].
  destruct (auth_equal sa honey_auth); simpl; [now rewrite Hid | exact IH].
Qed.

Lemma scan_honey_auths_ok (S pm : Session) (auths : list Authentication)
    (m : option Session) :
  id pm <> id S ->
  scan_honey_auths S pm auths m
  = Ok (if existsb (fun honey_auth =>
                      existsb (fun session_auth => auth_equal session_auth honey_auth)
                              (authentication pm)) auths
        then Some pm else m).
Proof.
  intros Hid. revert m.
  induction auths as [|ha auths IH]; intros m; simpl; [reflexivity|].
  rewrite scan_session_auths_ok by exact Hid. simpl. rewrite IH.
  destruct (existsb _ (authentication pm)); simpl; [|reflexivity].
  destruct (existsb _ auths); reflexivity.
Qed.

Lemma scan_candidates_ok (S : Session) (candidates : list Session)
    (m : option Session) :
  Forall (fun c => id c <> id S) candidates ->
  scan_candidates S candidates m = Ok (fold_left (retain S) candidates m).
Proof.
  intros Hall. revert m.
  induction Hall as [|c candidates Hid _ IH]; intros m; simpl; [reflexivity|].
  pose proof Hid as Hid'. apply unicode_eqb_neq in Hid'. rewrite Hid'. simpl.
  rewrite scan_honey_auths_ok by exact Hid. simpl. apply IH.
Qed.

Lemma find_append {A : Type} (f : A -> bool) (l1 l2 : list A) :
  find f (l1 ++ l2)
  = match find f l1 with
    | Some x => Some x
    | None => find f l2
    end.
Proof.
  induction l1 as [|x l1 IH]; simpl; [reflexivity|].
  destruct (f x); [reflexivity | exact IH].
Qed.

Lemma fold_retain_last (S : Session) (candidates : list Session)
    (m : option Session) :
  fold_left (retain S) candidates m
  = match last_match S candidates with
    | Some c => Some c
    | None => m
    end.
Proof.
  unfold last_match. revert m.
  induction candidates as [|c candidates IH]; intros m; simpl; [reflexivity|].
  rewrite IH, find_append. destruct (find _ (rev candidates)); [reflexivity|].
  simpl. unfold retain. destruct (has_matching_auth S c); reflexivity.
Qed.

Lemma candidate_query_ids (S : Session) (db : Store) (lo hi : datetime) :
  Forall (fun c => id c <> id S) (candidate_query S db lo hi).
Proof.
  apply Forall_forall. intros c Hc.
  apply candidate_query_In in Hc as [_ Hc].
  apply candidate_filter_spec in Hc. tauto.
Qed.

Lemma datetime_in_range_spec (t : Z) :
  datetime_in_range t = true <-> datetime_min <= t <= datetime_max.
Proof. unfold datetime_in_range. rewrite andb_true_iff, !Z.leb_le. tauto. Qed.

Lemma window_bounds (timediff : Z) (S : Session) :
  0 <= timediff -> window_in_range timediff S ->
  datetime_in_range (timestamp S - seconds timediff) = true
  /\ datetime_in_range (timestamp S + seconds timediff) = true.
Proof.
  unfold window_in_range, seconds. intros Hpos [Hlo Hhi].
  rewrite !datetime_in_range_spec. lia.
Qed.

(** [get_matching_session] returns the last candidate of its query that
    shares an authentication attempt with the session. *)
Lemma get_matching_session_last_match (S : Session) (db : Store) (timediff : Z) :
  0 <= timediff -> window_in_range timediff S ->
  get_matching_session S db timediff
  = Ok (last_match S (candidate_query S db (timestamp S - seconds timediff)
                        (timestamp S + seconds timediff))).
Proof.
  intros Hpos Hwin. destruct (window_bounds Hpos Hwin) as [Hlo Hhi].
  unfold get_matching_session, datetime_sub, datetime_add.
  rewrite Hlo, Hhi. simpl.
  rewrite scan_candidates_ok by apply candidate_query_ids.
  rewrite fold_retain_last. destruct (last_match _ _); reflexivity.
Qed.

(** Without the assumption on the window, the only exception is the
    [OverflowError] of the two window bounds. *)
Lemma get_matching_session_cases (S : Session) (db : Store) (timediff : Z) :
  get_matching_session S db timediff
  = Ok (last_match S (candidate_query S db (timestamp S - seconds timediff)
                        (timestamp S + seconds timediff)))
  \/ get_matching_session S db timediff = Raise OverflowError.
Proof.
  unfold get_matching_session, datetime_sub, datetime_add.
  destruct (datetime_in_range (timestamp S - _)); simpl; [|now right].
  destruct (datetime_in_range (timestamp S + _)); simpl; [|now right].
  left. rewrite scan_candidates_ok by apply candidate_query_ids.
  rewrite fold_retain_last. destruct (last_match _ _); reflexivity.
Qed.

Lemma last_match_Some (S M : Session) (candidates : list Session) :
  last_match S candidates = Some M ->
  In M candidates /\ has_matching_auth S M = true.
Proof.
  unfold last_match. intros H. apply find_some in H as [Hin Hm].
  apply in_rev in Hin. auto.
Qed.

Lemma last_match_None (S : Session) (candidates : list Session) :
  last_match S candidates = None ->
  forall M, In M candidates -> has_matching_auth S M = false.
Proof.
  unfold last_match. intros H M Hin.
  apply (find_none _ _ H). apply in_rev in Hin. exact Hin.
Qed.

(** The rows the loops can retain: the matches whose discriminator is not
    NULL. *)
Lemma matches_candidate (timediff : Z) (S M : Session) (db : Store) :
  In M (candidate_query S db (timestamp S - seconds timediff)
          (timestamp S + seconds timediff))
  /\ has_matching_auth S M = true
  <-> In M (sessions db) /\ matches timediff S M /\ discriminator M <> None.
Proof.
  rewrite candidate_query_In, candidate_filter_spec, has_matching_auth_spec.
  unfold matches. tauto.
Qed.

(** For a plain session every match has a discriminator. *)
Lemma matches_plain (timediff : Z) (S M : Session) :
  bait S = None -> matches timediff S M -> discriminator M <> None.
Proof.
  intros HS (_ & _ & Hd & _). unfold discriminator in Hd at 2.
  rewrite HS in Hd. exact Hd.
Qed.

(** ** The correlator *)

Lemma get_matching_session_candidate (S M : Session) (db : Store) (timediff : Z) :
  get_matching_session S db timediff = Ok (Some M) ->
  In M (sessions db) /\ matches timediff S M /\ discriminator M <> None.
Proof.
  intros H. destruct (get_matching_session_cases S db timediff) as [E|E];
    rewrite E in H; [|discriminate].
  injection H as H. apply last_match_Some in H.
  apply matches_candidate in H. exact H.
Qed.

Lemma get_matching_session_Some (S M : Session) (db : Store) (timediff : Z) :
  get_matching_session S db timediff = Ok (Some M) ->
  In M (sessions db) /\ matches timediff S M.
Proof. intros H. apply get_matching_session_candidate in H. tauto. Qed.

Lemma discriminator_cases (s : Session) :
  (discriminator s = None /\ bait s = None)
  \/ (discriminator s = Some "bait_session" /\ bait s <> None).
Proof. unfold discriminator. destruct (bait s); [right|left]; split; congruence. Qed.

(** Against the discriminator of a bait session the comparison of line 163
    is true of no row: it is false of a bait session and NULL of a plain
    one. *)
Lemma candidate_filter_bait_base (S M : Session) (lo hi : datetime) :
  bait S <> None -> candidate_filter S lo hi M = false.
Proof.
  intros HS. destruct (candidate_filter S lo hi M) eqn:E; [|reflexivity].
  apply candidate_filter_spec in E as (_ & _ & Hn & Hd & _).
  destruct (discriminator_cases S) as [[_ H]|[HS' _]]; [contradiction|].
  destruct (discriminator_cases M) as [[HM _]|[HM _]]; congruence.
Qed.

Lemma get_matching_session_bait_base (S M : Session) (db : Store) (timediff : Z) :
  bait S <> None -> get_matching_session S db timediff <> Ok (Some M).
Proof.
  intros HS H.
  destruct (get_matching_session_cases S db timediff) as [E|E];
    rewrite E in H; [|discriminate].
  injection H as H. apply last_match_Some in H as [Hin _].
  apply candidate_query_In in Hin as [_ Hf].
  rewrite candidate_filter_bait_base in Hf by exact HS. discriminate.
Qed.



(** C4, as the code has it.  For a plain (honeypot-observed) session [S]
    whose window ends are datetimes: when the rows of the store are
    [before ++ M :: after], [M] is a match of [S] and no row of [after] is
    one, [get_matching_session] returns [M], whatever matches [before]
    holds: the last match in enumeration order. *)
Theorem get_matching_session_returns_last (S M : Session) (db : Store)
    (before after : list Session) :
  bait S = None ->
  window_in_range 5 S ->
  sessions db = before ++ M :: after ->
  matches 5 S M ->
  (forall M', In M' after -> ~ matches 5 S M') ->
  get_matching_session S db 5 = Ok (Some M).
Proof.
  intros Hplain Hwin Hrows HM Hafter.
  rewrite get_matching_session_last_match by (lia || assumption).
  assert (HinM : In M (sessions db)) by (rewrite Hrows; apply in_elt).
  assert (Hc := conj HinM (conj HM (matches_plain Hplain HM))).
  apply matches_candidate in Hc as [Hc Hauth].
  apply candidate_query_In in Hc as [_ Hf].
  unfold last_match, candidate_query. rewrite Hrows, filter_app.
  cbn [filter]. rewrite Hf, rev_app_distr. cbn [rev].
  rewrite <- app_assoc, find_append.
  destruct (find _ (rev (filter _ after))) as [M'|] eqn:E.
  - exfalso. apply find_some in E as [Hin HauthM']. apply in_rev in Hin.
    apply filter_In in Hin as [Hin HfM'].
    apply (Hafter M' Hin).
    assert (HinM' : In M' (sessions db))
      by (rewrite Hrows; apply in_or_app; right; right; exact Hin).
    apply (proj1 (matches_candidate 5 S M' db)).
    split; [|exact HauthM']. apply candidate_query_In. auto.
  - cbn [app find]. rewrite Hauth. reflexivity.
Qed.

(** C9. Every row the candidate query yields has an identifier other than
    that of the session, the loops over these rows end without an exception,
    and [get_matching_session] never raises [AssertionError]. *)
Theorem assertions_never_fail (S : Session) (db : Store) (timediff : Z)
    (lo hi : datetime) (m : option Session) :
  Forall (fun c => id c <> id S) (candidate_query S db lo hi)
  /\ scan_candidates S (candidate_query S db lo hi) m
     = Ok (fold_left (retain S) (candidate_query S db lo hi) m)
  /\ get_matching_session S db timediff <> Raise AssertionError.
Proof.
  split; [apply candidate_query_ids|].
  split; [apply scan_candidates_ok, candidate_query_ids|].
  destruct (get_matching_session_cases S db timediff) as [E|E]; rewrite E;
    discriminate.
Qed.

Lemma matches_bool (timediff : Z) (S M : Session) :
  candidate_filter S (timestamp S - seconds timediff)
    (timestamp S + seconds timediff) M
  && has_matching_auth S M = true
  <-> matches timediff S M /\ discriminator M <> None.
Proof.
  rewrite andb_true_iff, candidate_filter_spec, has_matching_auth_spec.
  unfold matches. tauto.
Qed.

Lemma matches_bool_plain (timediff : Z) (S M : Session) :
  bait S = None ->
  (matches timediff S M
   <-> candidate_filter S (timestamp S - seconds timediff)
         (timestamp S + seconds timediff) M
       && has_matching_auth S M = true).
Proof.
  intros HS. rewrite matches_bool. split; [|tauto].
  intros HM. split; [exact HM | exact (matches_plain HS HM)].
Qed.

Ltac window :=
  unfold window_in_range, datetime_min, datetime_max, seconds; simpl; lia.

(** Decides whether a sample session is a match of a plain sample session. *)
Ltac decide_matches :=
  match goal with
  | |- matches _ _ _ =>
      apply (fun H => proj1 (proj1 (matches_bool _ _ _) H));
      vm_compute; reflexivity
  | |- ~ matches ?t ?S ?M =>
      let H := fresh in
      intros H; apply (proj1 (@matches_bool_plain t S M eq_refl)) in H;
      vm_compute in H; discriminate H
  end.

Import Samples.



(** The window is closed: a candidate exactly five seconds away is returned,
    one a millisecond further is not. *)
Example window_boundary :
  get_matching_session base (with_rows [at_minus_5s]) 5 = Ok (Some at_minus_5s)
  /\ get_matching_session base (with_rows [at_plus_5s]) 5 = Ok (Some at_plus_5s)
  /\ get_matching_session base (with_rows [at_minus_5001ms]) 5 = Ok None
  /\ get_matching_session base (with_rows [at_plus_5001ms]) 5 = Ok None.
Proof. repeat split; vm_compute; reflexivity. Qed.

(** The comparison of attempts is exact: another success flag, or another
    case of the username, is no match; nor is a session of the same kind. *)
Example credentials_exact :
  get_matching_session base (with_rows [failed_login; other_case; same_kind]) 5
  = Ok None.
Proof. vm_compute. reflexivity. Qed.

Lemma get_matching_session_returns_last_witness :
  matches 5 base at_minus_5s /\ matches 5 base at_plus_5s
  /\ get_matching_session base
       (with_rows [at_minus_5s; at_plus_5s; at_plus_5001ms]) 5
     = Ok (Some at_plus_5s).
Proof.
  split; [decide_matches|]. split; [decide_matches|].
  apply (@get_matching_session_returns_last base at_plus_5s
           (with_rows [at_minus_5s; at_plus_5s; at_plus_5001ms])
           [at_minus_5s] [at_plus_5001ms]).
  - reflexivity.
  - window.
  - reflexivity.
  - decide_matches.
  - intros M' [<-|[]]. decide_matches.
Defined.

(** The claim C4 fails in two places.  For the plain session [at_dawn], two
    seconds after the first datetime, both bait sessions of the store are
    matches and the call raises [OverflowError] instead of returning the
    last.  For the bait session [at_plus_5s], both plain sessions of the
    store have everything the claim asks of a match and the call returns
    [None]: against ['bait_session'] the filter on the discriminator is a
    SQL comparison, which is not true of the NULL of a plain session. *)
Lemma last_match_not_returned :
  (matches 5 at_dawn dawn_bait_1 /\ matches 5 at_dawn dawn_bait_2
   /\ get_matching_session at_dawn (with_rows [dawn_bait_1; dawn_bait_2]) 5
      = Raise OverflowError)
  /\ (matches 5 at_plus_5s base /\ matches 5 at_plus_5s same_kind
      /\ get_matching_session at_plus_5s (with_rows [base; same_kind]) 5
         = Ok None).
Proof.
  split; (split; [|split]); try (vm_compute; reflexivity).
  - decide_matches.
  - decide_matches.
  - unfold matches. simpl. repeat split; try discriminate; try lia.
    exists (attempt "u" "p" true), (attempt "u" "p" true). simpl. tauto.
  - unfold matches. simpl. repeat split; try discriminate; try lia.
    exists (attempt "u" "p" true), (attempt "u" "p" true). simpl. tauto.
Qed.

(** ** The store *)

Lemma one_filter_In {A : Type} (f : A -> bool) (rows : list A) (row : A) :
  one (filter f rows) = Ok row -> In row rows /\ f row = true.
Proof.
  intros H. apply filter_In.
  destruct (filter f rows) as [|r [|r' l]]; simpl in H; try discriminate.
  injection H as ->. left. reflexivity.
Qed.

Lemma query_classification_label (db : Store) (label row : string) :
  query_classification db label = Ok row -> row = label.
Proof.
  unfold query_classification. intros H.
  apply one_filter_In in H as [_ H]. apply String.eqb_eq in H. auto.
Qed.

Lemma query_honeypot_In (db : Store) (h row : unicode) :
  query_honeypot db h = Ok row -> row = h /\ In h (honeypots db).
Proof.
  unfold query_honeypot. intros H.
  apply one_filter_In in H as [Hin H]. apply unicode_eqb_eq in H.
  subst. auto.
Qed.

Lemma lookup_session_In (row : Session) (rows : list Session) :
  In row rows -> exists row', lookup_session (id row) rows = Some row'.
Proof.
  unfold lookup_session. intros Hin.
  destruct (find _ rows) as [row'|] eqn:E; [eauto|].
  apply (find_none _ _ E) in Hin. rewrite unicode_eqb_refl in Hin. discriminate.
Qed.

Lemma lookup_update_session (row' : Session) (key : unicode) (rows : list Session) :
  lookup_session key (update_session row' rows)
  = match lookup_session key rows with
    | Some row => if unicode_eqb key (id row') then Some row' else Some row
    | None => None
    end.
Proof.
  unfold lookup_session, update_session.
  induction rows as [|r rows IH]; simpl; [reflexivity|].
  destruct (unicode_eqb (id r) (id row')) eqn:Er.
  - apply unicode_eqb_eq in Er.
    destruct (unicode_eqb (id row') key) eqn:Ek.
    + apply unicode_eqb_eq in Ek. rewrite Er, Ek, !unicode_eqb_refl.
      reflexivity.
    + rewrite Er, Ek. exact IH.
  - destruct (unicode_eqb (id r) key) eqn:Ek; [|exact IH].
    apply unicode_eqb_eq in Ek. subst key. now rewrite Er.
Qed.

Lemma lookup_delete_session (key key' : unicode) (rows : list Session) :
  lookup_session key (delete_session key' rows)
  = if unicode_eqb key key' then None else lookup_session key rows.
Proof.
  unfold lookup_session, delete_session.
  induction rows as [|r rows IH]; simpl; [now destruct (unicode_eqb key key')|].
  destruct (unicode_eqb (id r) key') eqn:Er; simpl.
  - rewrite IH. destruct (unicode_eqb key key') eqn:Ek; [reflexivity|].
    destruct (unicode_eqb (id r) key) eqn:Erk; [|reflexivity].
    apply unicode_eqb_eq in Er, Erk. subst. now rewrite unicode_eqb_refl in Ek.
  - destruct (unicode_eqb (id r) key) eqn:Erk; [|exact IH].
    apply unicode_eqb_eq in Erk. subst key. now rewrite Er.
Qed.

(** ** merge_bait_and_session *)

Lemma format_merge_message_ok (H B : Session) :
  is_ascii (id B) = true -> is_ascii (id H) = true ->
  format_merge_message H B = Ok (id B, id H).
Proof. intros HB HH. unfold format_merge_message. now rewrite HB, HH. Qed.

Lemma format_merge_message_raises (H B : Session) :
  is_ascii (id B) && is_ascii (id H) = false ->
  format_merge_message H B = Raise UnicodeEncodeError.
Proof. intros E. unfold format_merge_message. now rewrite E. Qed.

Lemma merge_bait_and_session_ascii (H B : Session) (db final : Store) :
  merge_bait_and_session H B db = Ok final ->
  is_ascii (id B) = true /\ is_ascii (id H) = true.
Proof.
  unfold merge_bait_and_session, format_merge_message.
  destruct (is_ascii (id B)), (is_ascii (id H)); simpl;
    try discriminate; auto.
Qed.

(** With identifiers in ASCII and the [bait_session] label in the store, the
    merge of a honeypot session [H] into a row [B] with another identifier
    ends with no row under the identifier of [H], the merged bait session
    under that of [B], and every other row as it was. *)
Lemma merge_bait_and_session_ok (H B : Session) (db : Store) :
  is_ascii (id B) = true -> is_ascii (id H) = true ->
  query_classification db "bait_session" = Ok "bait_session" ->
  id H <> id B -> In B (sessions db) ->
  exists final,
    merge_bait_and_session H B db = Ok final
    /\ lookup_session (id H) (sessions final) = None
    /\ lookup_session (id B) (sessions final)
       = Some (merged_bait H B "bait_session")
    /\ (forall key, key <> id H -> key <> id B ->
        lookup_session key (sessions final) = lookup_session key (sessions db)).
Proof.
  intros HaB HaH Hlabel Hid HB. unfold merge_bait_and_session.
  rewrite (format_merge_message_ok _ _ HaB HaH), Hlabel. simpl.
  eexists. split; [reflexivity|]. simpl.
  split; [|split].
  - rewrite lookup_delete_session, unicode_eqb_refl. reflexivity.
  - rewrite lookup_delete_session.
    assert (E : unicode_eqb (id B) (id H) = false) by (apply unicode_eqb_neq; auto).
    rewrite E, lookup_update_session. simpl. rewrite unicode_eqb_refl.
    destruct (lookup_session_In _ _ HB) as [row' ->]. reflexivity.
  - intros key HkH HkB. apply unicode_eqb_neq in HkH, HkB.
    rewrite lookup_delete_session, HkH, lookup_update_session. simpl.
    rewrite HkB. now destruct (lookup_session key (sessions db)).
Qed.

(** ** persist_session *)

(** Case analysis on a chain of fallible steps that is known to succeed. *)
Ltac step_through H :=
  repeat match type of H with
    | bind ?m _ = Ok _ =>
        let E := fresh "E" in destruct m eqn:E; simpl in H; [|discriminate H]
    | (match ?x with _ => _ end) = Ok _ =>
        let E := fresh "E" in destruct x eqn:E; simpl in H; try discriminate H
    end.

Lemma getitem_ok {A : Type} (key : string) (field : option A) (v : A) :
  getitem key field = Ok v -> field = Some v.
Proof. destruct field; simpl; congruence. Qed.

Section PersisterFacts.

Context {imports : Imports}.

Lemma set_common_columns_ok (env : Env) (data : Data) (label : string)
    (h : unicode) (t : list Transcript) (a : list Authentication)
    (b : option BaitColumns) (s : Session) :
  set_common_columns env data label h t a b = Ok s ->
  classification s = label /\ bait s = b /\ honeypot s = h
  /\ transcript s = t /\ authentication s = a /\ session_data s = []
  /\ d_id data = Some (id s) /\ received s = utcnow env.
Proof.
  unfold set_common_columns. intros H. step_through H.
  injection H as <-. simpl. apply getitem_ok in E. repeat split; auto.
Qed.

(** A staged session is [pending]; it is a plain session under the honeypot
    topic and a bait session under the client topic. *)
Lemma stage_session_staged (env : Env) (data : Data) (topic : string)
    (db : Store) (s : Session) (clients' : list Client) :
  stage_session env data topic db = Ok (staged s clients') ->
  classification s = "pending"
  /\ ((String.eqb topic SESSION_HONEYPOT = true
       /\ discriminator s = None)
      \/ (String.eqb topic SESSION_HONEYPOT = false
          /\ String.eqb topic SESSION_CLIENT = true
          /\ discriminator s = Some "bait_session"
          /\ transcript s = [] /\ session_data s = [])).
Proof.
  unfold stage_session. intros H. step_through H;
    apply query_classification_label in E; subst;
    injection H as <- <-;
    match goal with
    | Hs : set_common_columns _ _ _ _ _ _ _ = Ok _ |- _ =>
        apply set_common_columns_ok in Hs;
        destruct Hs as (-> & Hb & _ & -> & _ & -> & _)
    end;
    unfold discriminator; rewrite Hb; auto 10.
Qed.

Lemma add_and_commit_ok (s : Session) (clients' : list Client) (db db1 : Store) :
  add_and_commit s clients' db = Ok db1 ->
  sessions db1 = sessions db ++ [s]
  /\ classifications db1 = classifications db
  /\ honeypots db1 = honeypots db
  /\ lookup_session (id s) (sessions db) = None.
Proof.
  unfold add_and_commit. intros H.
  destruct (lookup_session _ _) eqn:E; [discriminate|].
  injection H as <-. simpl. auto.
Qed.

Lemma persist_data_staged (env : Env) (data : Data) (topic : string)
    (db db1 : Store) (s : Session) (clients' : list Client) :
  stage_session env data topic db = Ok (staged s clients') ->
  add_and_commit s clients' db = Ok db1 ->
  persist_data env data topic db
  = mkRun (store (correlate_and_merge s topic db1))
      (debug_persisting topic :: log (correlate_and_merge s topic db1))
      (outcome (correlate_and_merge s topic db1)).
Proof. intros Hs Hc. unfold persist_data. rewrite Hs, Hc. reflexivity. Qed.

(** Only the pass of a honeypot-observed session finds a match, and the
    match is a bait session of the store. *)
Lemma correlation_pass_match (env : Env) (data : Data) (topic : string)
    (db db1 : Store) (s M : Session) (clients' : list Client) :
  stage_session env data topic db = Ok (staged s clients') ->
  add_and_commit s clients' db = Ok db1 ->
  get_matching_session s db1 5 = Ok (Some M) ->
  topic = SESSION_HONEYPOT /\ bait s = None /\ bait M <> None
  /\ In M (sessions db1) /\ id M <> id s.
Proof.
  intros Hstage Hcommit Hmatch.
  apply stage_session_staged in Hstage as [_ Hkind].
  destruct (get_matching_session_candidate _ _ _ Hmatch)
    as (HinM & (_ & _ & _ & Hid & _) & HdM).
  destruct Hkind as [(Ht & Hs) | (_ & _ & Hs & _)].
  - apply String.eqb_eq in Ht.
    destruct (discriminator_cases s) as [[_ Hb]|[Hd _]]; [|congruence].
    destruct (discriminator_cases M) as [[Hd _]|[_ HbM]]; [congruence|].
    auto.
  - destruct (discriminator_cases s) as [[Hd _]|[_ Hb]]; [congruence|].
    destruct (@get_matching_session_bait_base s M db1 5 Hb Hmatch).
Qed.

(** What [persist_session] does with a match of the session it has just
    committed, when the merge goes through. *)
Lemma persist_data_on_match (env : Env) (data : Data) (topic : string)
    (db db1 : Store) (s M : Session) (clients' : list Client) :
  stage_session env data topic db = Ok (staged s clients') ->
  add_and_commit s clients' db = Ok db1 ->
  get_matching_session s db1 5 = Ok (Some M) ->
  is_ascii (id s) = true -> is_ascii (id M) = true ->
  query_classification db1 "bait_session" = Ok "bait_session" ->
  exists final,
    merge_bait_and_session s M db1 = Ok final
    /\ persist_data env data topic db
       = mkRun final [debug_persisting topic; debug_merge (id M) (id s)] Returned
    /\ lookup_session (id s) (sessions final) = None
    /\ lookup_session (id M) (sessions final)
       = Some (merged_bait s M "bait_session")
    /\ (forall key, key <> id s -> key <> id M ->
        lookup_session key (sessions final) = lookup_session key (sessions db1)).
Proof.
  intros Hstage Hcommit Hmatch Has HaM Hlabel.
  destruct (correlation_pass_match _ _ _ _ Hstage Hcommit Hmatch)
    as (-> & _ & _ & HinM & Hid).
  rewrite (persist_data_staged _ _ _ _ Hstage Hcommit).
  unfold correlate_and_merge, correlate.
  rewrite String.eqb_refl, Hmatch, (format_merge_message_ok _ _ HaM Has).
  destruct (@merge_bait_and_session_ok s M db1) as (final & Hmerge & Hh & Hb & Ho);
    auto.
  rewrite Hmerge. exists final. simpl. auto.
Qed.

End PersisterFacts.

(** C5, on the records [h1] and [b1].  The bait session of [b1] and the
    honeypot session of [h1] are a pair by every condition of the
    correlator: same protocol, same honeypot, three seconds apart, the same
    login attempt, one a bait session and the other not.  When [b1] is
    ingested after [h1], the pass of [b1] returns [None], no merge is
    applied and both rows stay in the store, [pending]; when [h1] is
    ingested after [b1], the pair is merged. *)
Theorem bait_after_honeypot_left_pending :
  matches 5 s_b1 row_h1
  /\ get_matching_session s_b1 db_h1_then_b1 5 = Ok None
  /\ run_of [(env0, message "SESSION_HONEYPOT" h1);
             (env0, message "SESSION_CLIENT" b1)] db0
     = mkRun db_h1_then_b1
         [debug_persisting "SESSION_HONEYPOT"; debug_persisting "SESSION_CLIENT"]
         Returned
  /\ map summary (sessions db_h1_then_b1)
     = [(u "h1", "pending", [u "ls"]); (u "b1", "pending", [])]
  /\ map summary
       (sessions (store (run_of [(env0, message "SESSION_CLIENT" b1);
                                 (env0, message "SESSION_HONEYPOT" h1)] db0)))
     = [(u "b1", "bait_session", [u "ls"])].
Proof.
  split; [|repeat split; vm_compute; reflexivity].
  unfold matches. simpl. repeat split; try discriminate; try lia.
  eexists _, _. simpl. split; [left; reflexivity|].
  split; [left; reflexivity|]. vm_compute. auto.
Qed.

(** ** The classification after the correlation pass *)

Section Classification.

Context {imports : Imports}.

Lemma lookup_session_added (s : Session) (rows : list Session) :
  lookup_session (id s) rows = None ->
  lookup_session (id s) (rows ++ [s]) = Some s.
Proof.
  unfold lookup_session. intros H. rewrite find_append, H. simpl.
  now rewrite unicode_eqb_refl.
Qed.

(** C3, as the code has it.  A session is created with the classification
    [pending].  When its correlation pass finds no match, the call returns
    and the session is in the store, still [pending]: no other label is
    given.  A match is found only by the pass of a honeypot-observed
    session, and is a bait session; when the merge goes through, which it
    does with both identifiers in ASCII and the [bait_session] label in the
    store, the call returns, the honeypot session is gone and the bait
    session is classified [bait_session]. *)
Theorem classification_after_pass (env : Env) (data : Data) (topic : string)
    (db db1 : Store) (s : Session) (clients' : list Client) :
  stage_session env data topic db = Ok (staged s clients') ->
  add_and_commit s clients' db = Ok db1 ->
  classification s = "pending"
  /\ lookup_session (id s) (sessions db1) = Some s
  /\ (get_matching_session s db1 5 = Ok None ->
      persist_data env data topic db = mkRun db1 [debug_persisting topic] Returned)
  /\ (forall M, get_matching_session s db1 5 = Ok (Some M) ->
      topic = SESSION_HONEYPOT /\ bait s = None /\ bait M <> None
      /\ (is_ascii (id s) = true -> is_ascii (id M) = true ->
          query_classification db1 "bait_session" = Ok "bait_session" ->
          outcome (persist_data env data topic db) = Returned
          /\ lookup_session (id s)
               (sessions (store (persist_data env data topic db))) = None
          /\ option_map classification
               (lookup_session (id M)
                  (sessions (store (persist_data env data topic db))))
             = Some "bait_session")).
Proof.
  intros Hstage Hcommit.
  destruct (stage_session_staged _ _ _ _ Hstage) as [Hpending Hkind].
  destruct (add_and_commit_ok _ _ _ Hcommit) as (Hrows & _ & _ & Hfresh).
  split; [exact Hpending|].
  split; [rewrite Hrows; apply lookup_session_added, Hfresh|].
  split.
  - intros Hnone. rewrite (persist_data_staged _ _ _ _ Hstage Hcommit).
    unfold correlate_and_merge, correlate.
    destruct Hkind as [(Ht & _) | (Ht & Ht' & _)]; rewrite Ht, ?Ht', Hnone;
      reflexivity.
  - intros M Hmatch.
    destruct (correlation_pass_match _ _ _ _ Hstage Hcommit Hmatch)
      as (Ht & Hs & HM & _).
    do 3 (split; [assumption|]).
    intros Has HaM Hlabel.
    destruct (persist_data_on_match _ _ _ _ Hstage Hcommit Hmatch Has HaM Hlabel)
      as (final & _ & -> & HH & HB & _).
    simpl. rewrite HH, HB. auto.
Qed.

(** X21. The merge, when the pass of a honeypot-observed session [s] finds
    the bait session [M], both identifiers are ASCII and the [bait_session]
    label is in the store: the call logs the merge and returns, no row is
    left under the identifier of [s], the row under the identifier of [M]
    is [M] with the classification [bait_session] and with the transcript
    and the session data of [s] in place of its own, and the other rows are
    as they were. *)
Theorem honeypot_match_is_merged (env : Env) (data : Data)
    (db db1 : Store) (s M : Session) (clients' : list Client) :
  stage_session env data SESSION_HONEYPOT db = Ok (staged s clients') ->
  add_and_commit s clients' db = Ok db1 ->
  get_matching_session s db1 5 = Ok (Some M) ->
  is_ascii (id s) = true -> is_ascii (id M) = true ->
  query_classification db1 "bait_session" = Ok "bait_session" ->
  exists final,
    persist_data env data SESSION_HONEYPOT db
    = mkRun final [debug_persisting SESSION_HONEYPOT; debug_merge (id M) (id s)]
        Returned
    /\ lookup_session (id s) (sessions final) = None
    /\ lookup_session (id M) (sessions final)
       = Some (merged_bait s M "bait_session")
    /\ classification (merged_bait s M "bait_session") = "bait_session"
    /\ transcript (merged_bait s M "bait_session") = transcript s
    /\ session_data (merged_bait s M "bait_session") = session_data s
    /\ authentication (merged_bait s M "bait_session") = authentication M
    /\ bait (merged_bait s M "bait_session") = bait M
    /\ (forall key, key <> id s -> key <> id M ->
        lookup_session key (sessions final) = lookup_session key (sessions db1)).
Proof.
  intros Hstage Hcommit Hmatch Has HaM Hlabel.
  destruct (persist_data_on_match _ _ _ _ Hstage Hcommit Hmatch Has HaM Hlabel)
    as (final & _ & Hrun & HH & HB & Ho).
  exists final. simpl. auto 10.
Qed.

End Classification.

Lemma classification_after_pass_witness :
  @persist_data Reference.imports env0 data_b7 "SESSION_CLIENT" db_h1
  = mkRun db_h1_then_b7 [debug_persisting "SESSION_CLIENT"] Returned
  /\ map summary (sessions db_h1_then_b7)
     = [(u "h1", "pending", [u "ls"]); (u "b7", "pending", [])]
  /\ outcome (@persist_data Reference.imports env0 data_h1 "SESSION_HONEYPOT" db_b1)
     = Returned
  /\ lookup_session (u "h1")
       (sessions (store (@persist_data Reference.imports env0 data_h1
                           "SESSION_HONEYPOT" db_b1))) = None
  /\ option_map classification
       (lookup_session (u "b1")
          (sessions (store (@persist_data Reference.imports env0 data_h1
                              "SESSION_HONEYPOT" db_b1))))
     = Some "bait_session".
Proof.
  assert (Hs7 : @stage_session Reference.imports env0 data_b7 "SESSION_CLIENT" db_h1
                = Ok (staged s_b7 touched)) by (vm_compute; reflexivity).
  assert (Hc7 : add_and_commit s_b7 touched db_h1 = Ok db_h1_then_b7)
    by (vm_compute; reflexivity).
  assert (Hs1 : @stage_session Reference.imports env0 data_h1 "SESSION_HONEYPOT" db_b1
                = Ok (staged s_h1 touched)) by (vm_compute; reflexivity).
  assert (Hc1 : add_and_commit s_h1 touched db_b1 = Ok db_b1_then_h1)
    by (vm_compute; reflexivity).
  assert (Hm : get_matching_session s_h1 db_b1_then_h1 5 = Ok (Some row_b1))
    by (vm_compute; reflexivity).
  assert (Has : is_ascii (id s_h1) = true) by (vm_compute; reflexivity).
  assert (HaM : is_ascii (id row_b1) = true) by (vm_compute; reflexivity).
  assert (Hl : query_classification db_b1_then_h1 "bait_session" = Ok "bait_session")
    by (vm_compute; reflexivity).
  split.
  - apply (proj1 (proj2 (proj2
             (@classification_after_pass Reference.imports env0 data_b7
                "SESSION_CLIENT" db_h1 db_h1_then_b7 s_b7 touched Hs7 Hc7)))).
    vm_compute. reflexivity.
  - split; [vm_compute; reflexivity|].
    exact (proj2 (proj2 (proj2
             (proj2 (proj2 (proj2
               (@classification_after_pass Reference.imports env0 data_h1
                  "SESSION_HONEYPOT" db_b1 db_b1_then_h1 s_h1 touched Hs1 Hc1)))
              row_b1 Hm))) Has HaM Hl).
Defined.

Lemma unmatched_sessions_remain_pending :
  outcome (run_of [(env0, message "SESSION_HONEYPOT" h1);
                   (env0, message "SESSION_CLIENT" b7)] db0) = Returned
  /\ map summary (sessions (store (run_of [(env0, message "SESSION_HONEYPOT" h1);
                                           (env0, message "SESSION_CLIENT" b7)] db0)))
     = [(u "h1", "pending", [u "ls"]); (u "b7", "pending", [])].
Proof. split; vm_compute; reflexivity. Qed.

(** ** The gate, the honeypot reference and the topic *)

Section Gate.

Context {imports : Imports}.

Lemma persist_session_decoded (env : Env) (session_json topic : string)
    (data : Data) (db : Store) :
  decode_payload session_json = Ok data ->
  persist_session env session_json topic db = persist_data env data topic db.
Proof. intros H. unfold persist_session. rewrite H. reflexivity. Qed.

(** The store changes only when a session has been staged. *)
Lemma persist_data_not_staged (env : Env) (data : Data) (topic : string)
    (db : Store) :
  (forall s clients', stage_session env data topic db <> Ok (staged s clients')) ->
  store (persist_data env data topic db) = db.
Proof.
  intros H. unfold persist_data.
  destruct (stage_session env data topic db) as [[| |s c]|e]; try reflexivity.
  destruct (H s c). reflexivity.
Qed.





End Gate.

Section Refusals.

Context {imports : Imports}.

Lemma existsb_false_filter {A : Type} (f : A -> bool) (rows : list A) :
  existsb f rows = false -> filter f rows = [].
Proof.
  induction rows as [|r rows IH]; simpl; [reflexivity|].
  destruct (f r); simpl; [discriminate | exact IH].
Qed.

Lemma stage_session_honeypot_error (env : Env) (data : Data) (topic : string)
    (db : Store) (e : exn) :
  honeypot_reference_error data db = Some e ->
  exists e', stage_session env data topic db = Raise e'
             /\ (query_classification db "pending" = Ok "pending" -> e' = e).
Proof.
  unfold honeypot_reference_error, stage_session. intros H.
  destruct (query_classification db "pending") as [label|e0]; simpl;
    [|exists e0; split; [reflexivity | discriminate]].
  destruct (d_honeypot_id data) as [[h|]|]; simpl.
  - destruct (existsb _ _) eqn:E; [discriminate|]. injection H as <-.
    unfold query_honeypot. rewrite (existsb_false_filter _ _ E). simpl. eauto.
  - injection H as <-. eauto.
  - injection H as <-. eauto.
Qed.

(** C7. A decoded record whose [honeypot_id] is absent, null, or the id of no
    honeypot of the store is not persisted: the store is left as it was and
    the call ends with an exception, which is, when the [pending]
    classification is found, [KeyError], [AssertionError] or
    [NoResultFound] respectively. *)
Theorem honeypot_reference_required (env : Env) (session_json topic : string)
    (data : Data) (db : Store) (e : exn) :
  decode_payload session_json = Ok data ->
  honeypot_reference_error data db = Some e ->
  store (persist_session env session_json topic db) = db
  /\ (exists e', outcome (persist_session env session_json topic db) = Raised e')
  /\ (query_classification db "pending" = Ok "pending" ->
      persist_session env session_json topic db
      = mkRun db [debug_persisting topic] (Raised e)).
Proof.
  intros Hdecode Herror.
  rewrite persist_session_decoded with (data := data) by exact Hdecode.
  destruct (@stage_session_honeypot_error env data topic db e Herror) as (e' & Hstage & He').
  unfold persist_data. rewrite Hstage. simpl.
  split; [reflexivity|]. split; [eauto|].
  intros Hpending. rewrite (He' Hpending). reflexivity.
Qed.

Lemma stage_session_unknown (env : Env) (data : Data) (topic : string)
    (db : Store) :
  topic <> SESSION_HONEYPOT -> topic <> SESSION_CLIENT ->
  forall s clients', stage_session env data topic db <> Ok (staged s clients').
Proof.
  intros H1 H2 s clients' H. apply String.eqb_neq in H1, H2.
  unfold stage_session in H. rewrite H1, H2 in H.
  step_through H; discriminate H.
Qed.

(** C8, as the code has it.  A message whose topic is neither of the two
    kinds never changes the store.  When its payload decodes and the two
    lookups that precede the dispatch on the topic go through, the call logs
    the warning and returns, and the loop goes on with the next message. *)
Theorem unknown_message_type_dropped (env : Env) (session_json topic : string)
    (db : Store) :
  topic <> SESSION_HONEYPOT -> topic <> SESSION_CLIENT ->
  store (persist_session env session_json topic db) = db
  /\ (forall data h,
        decode_payload session_json = Ok data ->
        query_classification db "pending" = Ok "pending" ->
        d_honeypot_id data = Some (Some h) ->
        query_honeypot db h = Ok h ->
        persist_session env session_json topic db
        = mkRun db [debug_persisting topic; warn_unknown_message_type topic]
            Returned
        /\ forall message rest,
             split_topic message = Ok (topic, session_json) ->
             _run ((env, message) :: rest) db
             = mkRun (store (_run rest db))
                 ([debug_persisting topic; warn_unknown_message_type topic]
                    ++ log (_run rest db))
                 (outcome (_run rest db))).
Proof.
  intros H1 H2. split.
  - unfold persist_session. destruct (decode_payload session_json); [|reflexivity].
    apply persist_data_not_staged, stage_session_unknown; assumption.
  - intros data h Hdecode Hpending Hh Hquery.
    assert (Hrun : persist_session env session_json topic db
                   = mkRun db [debug_persisting topic;
                               warn_unknown_message_type topic] Returned).
    { rewrite persist_session_decoded with (data := data) by exact Hdecode.
      apply String.eqb_neq in H1, H2.
      unfold persist_data, stage_session.
      rewrite Hpending, Hh. simpl. rewrite Hquery. simpl.
      rewrite H1, H2. reflexivity. }
    split; [exact Hrun|].
    intros message rest Hsplit. simpl. rewrite Hsplit, Hrun. reflexivity.
Qed.

(** C2, as the code has it.  When [json.loads] raises [UnicodeDecodeError]
    on the payload, the payload is decoded as Latin-1, which cannot fail, and
    loaded again.  If this second load gives a record, the call goes on with
    it.  If it raises, the exception leaves [persist_session] with nothing
    logged and nothing stored, and it ends the loop: the messages after this
    one are not read. *)
Theorem latin1_retry (env : Env) (session_json topic : string) (db : Store) :
  json_loads_str session_json = Raise UnicodeDecodeError ->
  decode_payload session_json = json_loads_unicode (latin1_decode session_json)
  /\ (forall data,
        json_loads_unicode (latin1_decode session_json) = Ok data ->
        persist_session env session_json topic db
        = persist_data env data topic db)
  /\ (forall e,
        json_loads_unicode (latin1_decode session_json) = Raise e ->
        persist_session env session_json topic db = mkRun db [] (Raised e)
        /\ forall message rest,
             split_topic message = Ok (topic, session_json) ->
             _run ((env, message) :: rest) db = mkRun db [] (Raised e)).
Proof.
  intros Hfirst.
  assert (Hdecode : decode_payload session_json
                    = json_loads_unicode (latin1_decode session_json))
    by (unfold decode_payload; rewrite Hfirst; reflexivity).
  split; [exact Hdecode|]. split.
  - intros data Hsecond. apply persist_session_decoded.
    rewrite Hdecode. exact Hsecond.
  - intros e Hsecond.
    assert (Hrun : persist_session env session_json topic db
                   = mkRun db [] (Raised e))
      by (unfold persist_session; rewrite Hdecode, Hsecond; reflexivity).
    split; [exact Hrun|].
    intros message rest Hsplit. simpl. rewrite Hsplit, Hrun. reflexivity.
Qed.

End Refusals.



Lemma honeypot_reference_required_witness :
  @persist_session Reference.imports env0 no_reference "SESSION_HONEYPOT" db0
  = mkRun db0 [debug_persisting "SESSION_HONEYPOT"]
      (Raised (KeyError "honeypot_id"))
  /\ @persist_session Reference.imports env0 null_reference "SESSION_CLIENT" db0
     = mkRun db0 [debug_persisting "SESSION_CLIENT"] (Raised AssertionError)
  /\ @persist_session Reference.imports env0 unknown_reference "SESSION_HONEYPOT" db0
     = mkRun db0 [debug_persisting "SESSION_HONEYPOT"] (Raised NoResultFound).
Proof.
  assert (Hpending : query_classification db0 "pending" = Ok "pending")
    by reflexivity.
  split; [|split].
  - assert (Hdecode : @decode_payload Reference.imports no_reference
                      = Ok data_no_reference) by (vm_compute; reflexivity).
    assert (Herror : honeypot_reference_error data_no_reference db0
                     = Some (KeyError "honeypot_id")) by reflexivity.
    exact (proj2 (proj2 (@honeypot_reference_required Reference.imports env0
                           no_reference "SESSION_HONEYPOT" data_no_reference db0
                           _ Hdecode Herror)) Hpending).
  - assert (Hdecode : @decode_payload Reference.imports null_reference
                      = Ok data_null_reference) by (vm_compute; reflexivity).
    assert (Herror : honeypot_reference_error data_null_reference db0
                     = Some AssertionError) by reflexivity.
    exact (proj2 (proj2 (@honeypot_reference_required Reference.imports env0
                           null_reference "SESSION_CLIENT" data_null_reference db0
                           _ Hdecode Herror)) Hpending).
  - assert (Hdecode : @decode_payload Reference.imports unknown_reference
                      = Ok data_unknown_reference) by (vm_compute; reflexivity).
    assert (Herror : honeypot_reference_error data_unknown_reference db0
                     = Some NoResultFound) by reflexivity.
    exact (proj2 (proj2 (@honeypot_reference_required Reference.imports env0
                           unknown_reference "SESSION_HONEYPOT"
                           data_unknown_reference db0 _ Hdecode Herror)) Hpending).
Defined.

Lemma unknown_message_type_dropped_witness :
  run_of [(env0, message "SESSION_FOO" h1);
          (env0, message "SESSION_HONEYPOT" h1)] db0
  = mkRun db_h1
      [debug_persisting "SESSION_FOO"; warn_unknown_message_type "SESSION_FOO";
       debug_persisting "SESSION_HONEYPOT"]
      Returned.
Proof.
  assert (H1 : "SESSION_FOO" <> @SESSION_HONEYPOT Reference.imports) by discriminate.
  assert (H2 : "SESSION_FOO" <> @SESSION_CLIENT Reference.imports) by discriminate.
  destruct (@unknown_message_type_dropped Reference.imports env0 h1 "SESSION_FOO"
              db0 H1 H2) as (_ & Hdrop).
  assert (Hdecode : @decode_payload Reference.imports h1 = Ok data_h1)
    by (vm_compute; reflexivity).
  assert (Hpending : query_classification db0 "pending" = Ok "pending")
    by reflexivity.
  assert (Hh : d_honeypot_id data_h1 = Some (Some (u "hp"))) by reflexivity.
  assert (Hquery : query_honeypot db0 (u "hp") = Ok (u "hp")) by reflexivity.
  destruct (Hdrop data_h1 (u "hp") Hdecode Hpending Hh Hquery) as (_ & Hloop).
  unfold run_of.
  rewrite (Hloop (message "SESSION_FOO" h1) [(env0, message "SESSION_HONEYPOT" h1)])
    by (vm_compute; reflexivity).
  vm_compute. reflexivity.
Defined.

(** The claim C8 fails on a message of an unknown kind whose payload has no
    [honeypot_id]: the lookup of the honeypot precedes the dispatch on the
    topic, the [KeyError] ends the loop, and the honeypot session that
    follows is not read. *)
Lemma unknown_message_type_raises :
  "SESSION_FOO" <> @SESSION_HONEYPOT Reference.imports
  /\ "SESSION_FOO" <> @SESSION_CLIENT Reference.imports
  /\ @persist_session Reference.imports env0 no_reference "SESSION_FOO" db0
     = mkRun db0 [debug_persisting "SESSION_FOO"] (Raised (KeyError "honeypot_id"))
  /\ run_of [(env0, message "SESSION_FOO" no_reference);
             (env0, message "SESSION_HONEYPOT" h1)] db0
     = mkRun db0 [debug_persisting "SESSION_FOO"] (Raised (KeyError "honeypot_id")).
Proof.
  split; [discriminate|]. split; [discriminate|].
  split; vm_compute; reflexivity.
Qed.

Lemma latin1_retry_witness :
  @decode_payload Reference.imports latin1_record = Ok data_latin1_record
  /\ d_id data_latin1_record = Some [99; 97; 102; 255]%N
  /\ run_of [(env0, message "SESSION_HONEYPOT" not_json);
             (env0, message "SESSION_HONEYPOT" h1)] db0
     = mkRun db0 [] (Raised ValueError).
Proof.
  assert (Hrecord : @json_loads_str Reference.imports latin1_record
                    = Raise UnicodeDecodeError) by (vm_compute; reflexivity).
  assert (Hnot : @json_loads_str Reference.imports not_json
                 = Raise UnicodeDecodeError) by (vm_compute; reflexivity).
  destruct (@latin1_retry Reference.imports env0 latin1_record "SESSION_HONEYPOT"
              db0 Hrecord) as (Hretry & _ & _).
  destruct (@latin1_retry Reference.imports env0 not_json "SESSION_HONEYPOT"
              db0 Hnot) as (_ & _ & Hraise).
  split; [rewrite Hretry; vm_compute; reflexivity|].
  split; [reflexivity|].
  assert (Hsecond : @json_loads_unicode Reference.imports (latin1_decode not_json)
                    = Raise ValueError) by (vm_compute; reflexivity).
  destruct (Hraise ValueError Hsecond) as (_ & Hloop).
  apply Hloop. vm_compute. reflexivity.
Defined.

(** The claim C2 fails on the payload of the four bytes 5B 22 FF 22, which
    is not UTF-8 and, once decoded as Latin-1, not JSON: nothing is logged,
    the [ValueError] of the second load ends the loop, and the honeypot
    session that follows, which the loop would persist, is not read. *)
Lemma undecodable_payload_ends_loop :
  @json_loads_str Reference.imports not_json = Raise UnicodeDecodeError
  /\ @json_loads_unicode Reference.imports (latin1_decode not_json)
     = Raise ValueError
  /\ run_of [(env0, message "SESSION_HONEYPOT" not_json);
             (env0, message "SESSION_HONEYPOT" h1)] db0
     = mkRun db0 [] (Raised ValueError)
  /\ run_of [(env0, message "SESSION_HONEYPOT" h1)] db0
     = mkRun db_h1 [debug_persisting "SESSION_HONEYPOT"] Returned.
Proof. repeat split; vm_compute; reflexivity. Qed.

(** ** The classification of a candidate *)

Lemma filter_map_commute {A B : Type} (f : B -> bool) (g : A -> B) (l : list A) :
  filter f (map g l) = map g (filter (fun x => f (g x)) l).
Proof.
  induction l as [|x l IH]; simpl; [reflexivity|].
  destruct (f (g x)); simpl; rewrite IH; reflexivity.
Qed.

Lemma find_map_commute {A B : Type} (f : B -> bool) (g : A -> B) (l : list A) :
  find f (map g l) = option_map g (find (fun x => f (g x)) l).
Proof.
  induction l as [|x l IH]; simpl; [reflexivity|].
  destruct (f (g x)); [reflexivity | exact IH].
Qed.

Lemma candidate_query_reclassify (S : Session) (db : Store)
    (label : Session -> string) (lo hi : datetime) :
  candidate_query S (reclassify label db) lo hi
  = map (set_classification label) (candidate_query S db lo hi).
Proof.
  unfold candidate_query, reclassify. simpl.
  rewrite filter_map_commute. reflexivity.
Qed.

Lemma last_match_reclassify (S : Session) (label : Session -> string)
    (candidates : list Session) :
  last_match S (map (set_classification label) candidates)
  = option_map (set_classification label) (last_match S candidates).
Proof.
  unfold last_match. rewrite <- map_rev, find_map_commute. reflexivity.
Qed.

(** C10. The candidate query and the comparison of attempts do not read the
    classification of a row: on the store relabelled in any way,
    [get_matching_session] returns the same row, relabelled.  So a bait
    session that a merge has classified [bait_session] is matched again by a
    later honeypot session of its window, and the second merge replaces its
    transcript: after [b1], [h1] and [h2] the store holds the bait session
    alone, with the transcript of [h2]. *)
Theorem classification_not_filtered (S : Session) (db : Store)
    (label : Session -> string) (timediff : Z) :
  get_matching_session S (reclassify label db) timediff
  = match get_matching_session S db timediff with
    | Ok m => Ok (option_map (set_classification label) m)
    | Raise e => Raise e
    end
  /\ map summary
       (sessions (store (run_of [(env0, message "SESSION_CLIENT" b1);
                                 (env0, message "SESSION_HONEYPOT" h1)] db0)))
     = [(u "b1", "bait_session", [u "ls"])]
  /\ run_of [(env0, message "SESSION_HONEYPOT" h2)] db_b1_h1
     = mkRun (store (run_of [(env0, message "SESSION_HONEYPOT" h2)] db_b1_h1))
         [debug_persisting "SESSION_HONEYPOT"; debug_merge (u "b1") (u "h2")]
         Returned
  /\ map summary
       (sessions (store (run_of [(env0, message "SESSION_HONEYPOT" h2)] db_b1_h1)))
     = [(u "b1", "bait_session", [u "pwd"])].
Proof.
  split; [|repeat split; vm_compute; reflexivity].
  unfold get_matching_session, datetime_sub, datetime_add.
  destruct (datetime_in_range (timestamp S - _)); simpl; [|reflexivity].
  destruct (datetime_in_range (timestamp S + _)); simpl; [|reflexivity].
  rewrite !scan_candidates_ok by apply candidate_query_ids.
  rewrite !fold_retain_last, candidate_query_reclassify, last_match_reclassify.
  destruct (last_match _ _); reflexivity.
Qed.

(** * Further properties *)

(** ** Startup *)

Lemma filter_length_split {A : Type} (f : A -> bool) (l : list A) :
  (List.length (filter f l) + List.length (filter (fun x => negb (f x)) l)
   = List.length l)%nat.
Proof.
  induction l as [|x l IH]; simpl; [reflexivity|].
  destruct (f x); simpl; lia.
Qed.

Lemma filter_none {A : Type} (f : A -> bool) (l : list A) :
  (forall x, In x l -> f x = false) -> filter f l = [].
Proof.
  induction l as [|x l IH]; simpl; intros H; [reflexivity|].
  rewrite (H x) by auto. apply IH. auto.
Qed.

Lemma filter_all {A : Type} (f : A -> bool) (l : list A) :
  (forall x, In x l -> f x = true) -> filter f l = l.
Proof.
  induction l as [|x l IH]; simpl; intros H; [reflexivity|].
  rewrite (H x) by auto. f_equal. apply IH. auto.
Qed.

(** X1. With the [pending] classification in the store, the constructor
    deletes the sessions classified [pending] and no other: a session is in
    the store afterwards exactly when it was there and is not [pending], the
    other tables are as they were, and the number logged is the number of
    sessions that went. *)
Theorem startup_cleans_pending (db : Store) :
  query_classification db "pending" = Ok "pending" ->
  exists n,
    __init__ false db
    = mkStartup (startup_store (__init__ false db)) [info_cleaned n] Returned
    /\ (forall s, In s (sessions (startup_store (__init__ false db)))
                  <-> In s (sessions db) /\ classification s <> "pending")
    /\ (n + List.length (sessions (startup_store (__init__ false db)))
        = List.length (sessions db))%nat
    /\ classifications (startup_store (__init__ false db)) = classifications db
    /\ honeypots (startup_store (__init__ false db)) = honeypots db
    /\ clients (startup_store (__init__ false db)) = clients db.
Proof.
  intros Hpending. unfold __init__. rewrite Hpending. simpl.
  eexists. split; [reflexivity|]. split; [|split; [apply filter_length_split|auto]].
  intros s. rewrite filter_In, negb_true_iff. unfold classified.
  rewrite String.eqb_neq. tauto.
Qed.

(** X2. With [clear_sessions] the session table is empty afterwards, the
    other tables are as they were, and the two numbers logged add up to the
    number of sessions the store held. *)
Theorem startup_clear_sessions (db : Store) :
  query_classification db "pending" = Ok "pending" ->
  exists pending_deleted count,
    __init__ true db
    = mkStartup (mkStore (classifications db) (honeypots db) (clients db) [])
        [info_cleaned pending_deleted; info_deleting count] Returned
    /\ (pending_deleted + count = List.length (sessions db))%nat.
Proof.
  intros Hpending. unfold __init__. rewrite Hpending. simpl.
  eexists. eexists. split; [reflexivity|]. apply filter_length_split.
Qed.

(** X3. Without a [pending] classification in the store the constructor
    raises [NoResultFound] before it deletes anything, with [clear_sessions]
    too: the store is the one it found. *)
Theorem startup_requires_pending_label (clear_sessions : bool) (db : Store) :
  ~ In "pending" (classifications db) ->
  __init__ clear_sessions db = mkStartup db [] (Raised NoResultFound).
Proof.
  intros Hnone. unfold __init__, query_classification.
  rewrite filter_none; [reflexivity|].
  intros label Hin. apply String.eqb_neq. intros <-. auto.
Qed.

Lemma startup_unfold (clear_sessions : bool) (db : Store) (label : string) :
  query_classification db "pending" = Ok label ->
  __init__ clear_sessions db
  = let rows := filter (fun s => negb (classified label s)) (sessions db) in
    let entry :=
      info_cleaned (List.length (filter (classified label) (sessions db))) in
    if clear_sessions then
      mkStartup (with_sessions (with_sessions db rows) [])
        [entry; info_deleting (List.length rows)] Returned
    else mkStartup (with_sessions db rows) [entry] Returned.
Proof. intros E. unfold __init__. rewrite E. reflexivity. Qed.

(** X4. Starting a second time deletes nothing: the store of the first start
    is left as it is and the numbers logged are zero. *)
Theorem startup_idempotent (clear_sessions : bool) (db : Store) :
  startup_outcome (__init__ clear_sessions db) = Returned ->
  __init__ clear_sessions (startup_store (__init__ clear_sessions db))
  = mkStartup (startup_store (__init__ clear_sessions db))
      (if clear_sessions then [info_cleaned 0; info_deleting 0]
       else [info_cleaned 0])
      Returned.
Proof.
  destruct (query_classification db "pending") as [label|e] eqn:E.
  - intros _. rewrite (startup_unfold clear_sessions db E).
    destruct clear_sessions; cbn [startup_store].
    + rewrite (@startup_unfold true (with_sessions (with_sessions db _) [])
                 label E).
      reflexivity.
    + rewrite (@startup_unfold false (with_sessions db _) label E).
      cbv zeta. cbn [sessions with_sessions].
      set (rows := filter _ (sessions db)).
      assert (Hnone : filter (classified label) rows = []).
      { apply filter_none. intros s Hs. apply filter_In in Hs.
        apply negb_true_iff. tauto. }
      assert (Hall : filter (fun s => negb (classified label s)) rows = rows).
      { apply filter_all. intros s Hs. apply filter_In in Hs. tauto. }
      rewrite Hnone, Hall. reflexivity.
  - unfold __init__. rewrite E. simpl. discriminate.
Qed.

(** ** The loop *)

(** X5. [message.split(' ', 1)] cuts at the first space and only there: a
    message splits into a topic and a payload exactly when it is the topic,
    a space and the payload, the topic holding no space; the payload may
    hold any. *)
Theorem split_topic_join (message topic payload : string) :
  split_topic message = Ok (topic, payload)
  <-> message = (topic ++ " " ++ payload)%string /\ has_space topic = false.
Proof.
  revert topic. induction message as [|c message IH]; intros topic; simpl.
  - split; [discriminate|]. intros [H _]. destruct topic; discriminate H.
  - destruct (Ascii.eqb c " ") eqn:Ec.
    + apply Ascii.eqb_eq in Ec. subst c. split.
      * intros H. injection H as <- <-. auto.
      * intros [H Hs]. destruct topic as [|c' topic]; simpl in *.
        -- injection H as ->. reflexivity.
        -- injection H as <- _. simpl in Hs. discriminate Hs.
    + destruct (split_topic message) as [[t p]|e] eqn:E; simpl; split.
      * intros H. injection H as <- <-.
        destruct (proj1 (IH t) eq_refl) as [-> Hs]. simpl. rewrite Ec. auto.
      * intros [H Hs]. destruct topic as [|c' topic]; simpl in *.
        -- injection H as -> _. discriminate Ec.
        -- injection H as <- H. rewrite Ec in Hs. simpl in Hs.
           pose proof (proj2 (IH topic) (conj H Hs)) as Heq.
           injection Heq as -> ->. reflexivity.
      * discriminate.
      * intros [H Hs]. destruct topic as [|c' topic]; simpl in *.
        -- injection H as -> _. discriminate Ec.
        -- injection H as <- H. rewrite Ec in Hs. simpl in Hs.
           discriminate (proj2 (IH topic) (conj H Hs)).
Qed.

Lemma split_topic_raises (message : string) (e : exn) :
  split_topic message = Raise e <-> e = ValueError /\ has_space message = false.
Proof.
  induction message as [|c message IH]; simpl.
  - split; [intros H; injection H as <-; auto | intros [-> _]; reflexivity].
  - destruct (Ascii.eqb c " "); simpl; [split; [discriminate | intros [_ H]; discriminate H]|].
    destruct (split_topic message) as [[t p]|e'] eqn:E; simpl.
    + split; [discriminate|]. intros H. apply IH in H. discriminate H.
    + split.
      * intros H. injection H as <-. apply IH. reflexivity.
      * intros H. apply IH in H. exact H.
Qed.

Section Loop.

Context {imports : Imports}.

(** X6. A message without a space cannot be unpacked into a topic and a
    payload: the [ValueError] ends the loop with the store as it is, and the
    messages behind it are not read. *)
Theorem message_without_space_ends_loop (env : Env) (message : string)
    (rest : list (Env * string)) (db : Store) :
  has_space message = false ->
  _run ((env, message) :: rest) db = mkRun db [] (Raised ValueError).
Proof.
  intros H. simpl.
  rewrite (proj2 (split_topic_raises message ValueError) (conj eq_refl H)).
  reflexivity.
Qed.

(** X7. The loop has no state of its own: running a feed in two parts, the
    second on the store the first left, is running it whole, and once a
    message has raised, nothing behind it is processed. *)
Theorem run_app (feed1 feed2 : list (Env * string)) (db : Store) :
  _run (feed1 ++ feed2) db
  = match outcome (_run feed1 db) with
    | Raised _ => _run feed1 db
    | Returned =>
        mkRun (store (_run feed2 (store (_run feed1 db))))
          (log (_run feed1 db) ++ log (_run feed2 (store (_run feed1 db))))
          (outcome (_run feed2 (store (_run feed1 db))))
    end.
Proof.
  revert db. induction feed1 as [|[env message] feed1 IH]; intros db.
  - simpl. destruct (_run feed2 db). reflexivity.
  - cbn [app _run].
    destruct (split_topic message) as [[topic session_json]|e]; simpl;
      [|reflexivity].
    destruct (outcome (persist_session env session_json topic db)) eqn:E.
    + rewrite IH.
      destruct (outcome (_run feed1 _)) eqn:E1; simpl;
        rewrite ?E1, ?app_assoc; reflexivity.
    + rewrite E. reflexivity.
Qed.

End Loop.

(** ** The correlator, further *)

(** X8. [get_matching_session] raises nothing but the [OverflowError] of its
    two window bounds, and raises it exactly when an end of the window is
    not a datetime. *)
Theorem get_matching_session_raises (S : Session) (db : Store) (timediff : Z)
    (e : exn) :
  0 <= timediff ->
  (get_matching_session S db timediff = Raise e
   <-> e = OverflowError /\ ~ window_in_range timediff S).
Proof.
  intros Hpos. split.
  - intros H. destruct (get_matching_session_cases S db timediff) as [E|E];
      rewrite E in H; [discriminate|]. injection H as <-.
    split; [reflexivity|]. intros Hwin.
    rewrite get_matching_session_last_match in E by assumption. discriminate.
  - intros [-> Hwin]. unfold get_matching_session, datetime_sub, datetime_add.
    destruct (datetime_in_range (timestamp S - _)) eqn:Elo; simpl; [|reflexivity].
    destruct (datetime_in_range (timestamp S + _)) eqn:Ehi; simpl; [|reflexivity].
    apply datetime_in_range_spec in Elo, Ehi. destruct Hwin.
    unfold window_in_range, seconds in *. lia.
Qed.

(** X9. The comparison of line 163 is made against the discriminator of the
    base session, and against ['bait_session'] it is true of no row.  So
    with a bait session as the base the candidate query is empty, whatever
    the store holds, and [get_matching_session] returns [None] or raises
    the [OverflowError] of its window: the pass of a bait-observed session
    never finds a match. *)
Theorem bait_base_finds_no_match (S : Session) (db : Store) (timediff : Z) :
  bait S <> None ->
  (forall lo hi, candidate_query S db lo hi = [])
  /\ (get_matching_session S db timediff = Ok None
      \/ get_matching_session S db timediff = Raise OverflowError).
Proof.
  intros HS.
  assert (Hq : forall lo hi, candidate_query S db lo hi = []).
  { intros lo hi. unfold candidate_query.
    induction (sessions db) as [|M rows IH]; simpl; [reflexivity|].
    rewrite candidate_filter_bait_base by exact HS. exact IH. }
  split; [exact Hq|].
  destruct (get_matching_session_cases S db timediff) as [E|E]; [left|now right].
  rewrite E, Hq. reflexivity.
Qed.

(** X10. A session is matched on its credentials only: one without
    authentication attempts finds no match and is the match of none. *)
Theorem no_attempts_no_match (S M : Session) (db : Store) (timediff : Z) :
  get_matching_session S db timediff = Ok (Some M) ->
  authentication S <> [] /\ authentication M <> [].
Proof.
  intros H. apply get_matching_session_Some in H as (_ & HM).
  destruct HM as (_ & _ & _ & _ & _ & (ha & sa & Hha & Hsa & _)).
  split; intros E; rewrite E in *; contradiction.
Qed.

(** ** What persist_session stores *)

Lemma for_each_Forall2 {A B : Type} (f : A -> result B) (xs : list A)
    (ys : list B) :
  for_each f xs = Ok ys -> Forall2 (fun x y => f x = Ok y) xs ys.
Proof.
  revert ys. induction xs as [|x xs IH]; simpl; intros ys H.
  - injection H as <-. constructor.
  - destruct (f x) as [y|] eqn:E; simpl in H; [|discriminate].
    destruct (for_each f xs) as [ys'|]; simpl in H; [|discriminate].
    injection H as <-. constructor; auto.
Qed.

Lemma touch_client_ids (cid : unicode) (t : datetime) (rows : list Client) :
  map client_id (touch_client cid t rows) = map client_id rows.
Proof.
  unfold touch_client. rewrite map_map. apply map_ext.
  intros c. destruct (unicode_eqb (client_id c) cid); reflexivity.
Qed.

Lemma query_client_In (db : Store) (cid : unicode) (row : Client) :
  query_client db cid = Ok row -> client_id row = cid /\ In row (clients db).
Proof.
  unfold query_client. intros H. apply one_filter_In in H as [Hin H].
  apply unicode_eqb_eq in H. auto.
Qed.

Section Stored.

Context {imports : Imports}.

Lemma set_common_columns_inv (env : Env) (data : Data) (label : string)
    (h : unicode) (t : list Transcript) (a : list Authentication)
    (b : option BaitColumns) (s : Session) :
  set_common_columns env data label h t a b = Ok s ->
  d_id data = Some (id s)
  /\ (exists text, d_timestamp data = Some text /\ strptime text = Ok (timestamp s))
  /\ d_protocol data = Some (protocol s)
  /\ d_destination_ip data = Some (destination_ip s)
  /\ d_destination_port data = Some (destination_port s)
  /\ d_source_ip data = Some (source_ip s)
  /\ d_source_port data = Some (source_port s)
  /\ received s = utcnow env.
Proof.
  unfold set_common_columns. intros H. step_through H.
  injection H as <-. simpl.
  repeat match goal with
         | Hg : getitem _ _ = Ok _ |- _ => apply getitem_ok in Hg
         end.
  repeat split; eauto.
Qed.

(** Everything a staged session owes to the record and to the store. *)
Lemma stage_session_inv (env : Env) (data : Data) (topic : string)
    (db : Store) (s : Session) (clients' : list Client) :
  stage_session env data topic db = Ok (staged s clients') ->
  d_honeypot_id data = Some (Some (honeypot s))
  /\ In (honeypot s) (honeypots db)
  /\ login_attempts data = Ok (authentication s)
  /\ session_data s = []
  /\ ((String.eqb topic SESSION_HONEYPOT = true
       /\ bait s = None /\ clients' = clients db
       /\ exists entries, d_transcript data = Some entries
                          /\ for_each transcript_entity entries = Ok (transcript s))
      \/ (String.eqb topic SESSION_HONEYPOT = false
          /\ String.eqb topic SESSION_CLIENT = true
          /\ transcript s = []
          /\ (d_did_complete data = Some true
              \/ ignore_failed_bait_session env = false)
          /\ exists cid did_connect_ did_login_ did_complete_,
               d_client_id data = Some cid
               /\ In cid (map client_id (clients db))
               /\ d_did_connect data = Some did_connect_
               /\ d_did_login data = Some did_login_
               /\ d_did_complete data = Some did_complete_
               /\ bait s = Some (mkBaitColumns did_connect_ did_login_
                                   did_complete_ cid)
               /\ clients' = touch_client cid (now env) (clients db))).
Proof.
  unfold stage_session. intros H. step_through H;
    injection H as <- <-;
    repeat match goal with
      | Hg : getitem _ _ = Ok _ |- _ => apply getitem_ok in Hg
      | Hq : query_honeypot _ _ = Ok _ |- _ => apply query_honeypot_In in Hq
      | Hq : query_client _ _ = Ok _ |- _ => apply query_client_In in Hq
      end;
    match goal with
    | Hs : set_common_columns _ _ _ _ _ _ _ = Ok _ |- _ =>
        apply set_common_columns_ok in Hs;
        destruct Hs as (_ & Hb & Hh & Ht & Ha & Hd & _)
    end;
    repeat match goal with
      | Hc : _ /\ _ |- _ => destruct Hc
      end; subst;
    do 4 (split; [assumption || reflexivity|]).
  - left. do 3 (split; [assumption || reflexivity|]). eauto.
  - right. do 3 (split; [assumption || reflexivity|]). split.
    + match goal with
      | Hc : negb ?c && _ = false |- _ => destruct c; simpl in Hc; auto
      end.
    + do 4 eexists.
      repeat (split; [eassumption || (apply in_map; eassumption)
                      || reflexivity|]).
      reflexivity.
Qed.

End Stored.

Section StoredFacts.

Context {imports : Imports}.

Lemma correlate_and_merge_tables (s : Session) (topic : string) (db : Store) :
  classifications (store (correlate_and_merge s topic db)) = classifications db
  /\ honeypots (store (correlate_and_merge s topic db)) = honeypots db
  /\ clients (store (correlate_and_merge s topic db)) = clients db.
Proof.
  assert (H : forall pair,
             classifications (store (correlate s db pair)) = classifications db
             /\ honeypots (store (correlate s db pair)) = honeypots db
             /\ clients (store (correlate s db pair)) = clients db).
  { intros pair. unfold correlate.
    destruct (get_matching_session s db 5) as [[M|]|e]; simpl; auto.
    destruct (pair M) as [H B]. unfold merge_bait_and_session.
    destruct (format_merge_message H B) as [[bait_id honeypot_id]|e];
      simpl; auto.
    destruct (query_classification db "bait_session"); simpl; auto. }
  unfold correlate_and_merge.
  destruct (String.eqb topic SESSION_HONEYPOT); [apply H|].
  destruct (String.eqb topic SESSION_CLIENT); [apply H|]. simpl. auto.
Qed.

Lemma persist_data_cases (env : Env) (data : Data) (topic : string) (db : Store) :
  store (persist_data env data topic db) = db
  \/ exists s clients' db1,
       stage_session env data topic db = Ok (staged s clients')
       /\ add_and_commit s clients' db = Ok db1
       /\ persist_data env data topic db
          = mkRun (store (correlate_and_merge s topic db1))
              (debug_persisting topic :: log (correlate_and_merge s topic db1))
              (outcome (correlate_and_merge s topic db1)).
Proof.
  destruct (stage_session env data topic db) as [[| |s c]|e] eqn:Hs;
    try (left; unfold persist_data; rewrite Hs; reflexivity).
  destruct (add_and_commit s c db) as [db1|e] eqn:Hc.
  - right. exists s, c, db1. split; [reflexivity|]. split; [assumption|].
    apply persist_data_staged with (clients' := c); assumption.
  - left. unfold persist_data. rewrite Hs, Hc. reflexivity.
Qed.

Lemma persist_session_tables (env : Env) (session_json topic : string)
    (db : Store) :
  classifications (store (persist_session env session_json topic db))
  = classifications db
  /\ honeypots (store (persist_session env session_json topic db)) = honeypots db
  /\ map client_id (clients (store (persist_session env session_json topic db)))
     = map client_id (clients db).
Proof.
  unfold persist_session. destruct (decode_payload session_json) as [data|e];
    [|simpl; auto].
  destruct (persist_data_cases env data topic db)
    as [-> | (s & c & db1 & Hs & Hc & ->)]; [auto|]. simpl.
  destruct (correlate_and_merge_tables s topic db1) as (-> & -> & ->).
  apply stage_session_inv in Hs as (_ & _ & _ & _ & Hkind).
  unfold add_and_commit in Hc. destruct (lookup_session _ _); [discriminate|].
  injection Hc as <-. simpl. split; [reflexivity|]. split; [reflexivity|].
  destruct Hkind as [(_ & _ & -> & _) | (_ & _ & _ & _ & Hc)]; [reflexivity|].
  destruct Hc as (cid & ? & ? & ? & _ & _ & _ & _ & _ & _ & ->).
  apply touch_client_ids.
Qed.

(** X11. The persister reads the classification and honeypot tables and
    never writes them, and it neither adds nor removes a client: after any
    feed, ended by an exception or not, these tables hold the rows they held,
    the clients up to their [last_activity]. *)
Theorem run_keeps_reference_tables (feed : list (Env * string)) (db : Store) :
  classifications (store (_run feed db)) = classifications db
  /\ honeypots (store (_run feed db)) = honeypots db
  /\ map client_id (clients (store (_run feed db))) = map client_id (clients db).
Proof.
  revert db. induction feed as [|[env message] feed IH]; intros db; simpl;
    [auto|].
  destruct (split_topic message) as [[topic session_json]|e]; simpl; [|auto].
  destruct (persist_session_tables env session_json topic db) as (Hc & Hh & Hi).
  destruct (outcome (persist_session env session_json topic db)); [|auto].
  simpl. destruct (IH (store (persist_session env session_json topic db)))
    as (-> & -> & ->). auto.
Qed.

(** X12. The session is committed before its counterpart is looked for, so
    an exception of the correlation pass, or of the merge, leaves the new
    session in the store, with its match when there is one: nothing is
    rolled back.  The merge raises [UnicodeEncodeError] from its log line
    when an identifier of the pair is not ASCII, and otherwise what the
    query of the [bait_session] classification raises. *)
Theorem exception_after_commit (env : Env) (data : Data) (topic : string)
    (db db1 : Store) (s : Session) (clients' : list Client) (e : exn) :
  stage_session env data topic db = Ok (staged s clients') ->
  add_and_commit s clients' db = Ok db1 ->
  get_matching_session s db1 5 = Raise e
  \/ (exists M, get_matching_session s db1 5 = Ok (Some M)
       /\ ((is_ascii (id M) && is_ascii (id s) = false
            /\ e = UnicodeEncodeError)
           \/ (is_ascii (id M) && is_ascii (id s) = true
               /\ query_classification db1 "bait_session" = Raise e))) ->
  store (persist_data env data topic db) = db1
  /\ outcome (persist_data env data topic db) = Raised e
  /\ lookup_session (id s) (sessions db1) = Some s
  /\ classification s = "pending".
Proof.
  intros Hstage Hcommit Hraise.
  rewrite (persist_data_staged _ _ _ _ Hstage Hcommit).
  destruct (stage_session_staged _ _ _ _ Hstage) as [Hpending Hkind].
  destruct (add_and_commit_ok _ _ _ Hcommit) as (Hrows & _ & _ & Hfresh).
  assert (Hrun : store (correlate_and_merge s topic db1) = db1
                 /\ outcome (correlate_and_merge s topic db1) = Raised e).
  { destruct Hraise as [Hr | (M & Hm & Hcause)].
    - unfold correlate_and_merge, correlate.
      destruct Hkind as [(Ht & _) | (Ht & Ht' & _)]; rewrite Ht, ?Ht', Hr;
        simpl; auto.
    - destruct (correlation_pass_match _ _ _ _ Hstage Hcommit Hm) as (-> & _).
      unfold correlate_and_merge, correlate, merge_bait_and_session.
      rewrite String.eqb_refl, Hm.
      destruct Hcause as [(Ha & ->) | (Ha & Hq)].
      + rewrite (format_merge_message_raises _ _ Ha). simpl. auto.
      + unfold format_merge_message. rewrite Ha, Hq. simpl. auto. }
  destruct Hrun as [-> ->]. simpl.
  split; [reflexivity|]. split; [reflexivity|].
  split; [rewrite Hrows; apply lookup_session_added, Hfresh | exact Hpending].
Qed.

(** X13. A bait record that passes the gate names its client: when no client
    of the store has the [client_id] of the record, the call raises
    [NoResultFound] and nothing is stored. *)
Theorem unknown_client_not_persisted (env : Env) (data : Data) (db : Store)
    (h cid : unicode) (completed : bool) :
  SESSION_CLIENT <> SESSION_HONEYPOT ->
  query_classification db "pending" = Ok "pending" ->
  d_honeypot_id data = Some (Some h) ->
  query_honeypot db h = Ok h ->
  d_did_complete data = Some completed ->
  negb completed && ignore_failed_bait_session env = false ->
  d_client_id data = Some cid ->
  ~ In cid (map client_id (clients db)) ->
  persist_data env data SESSION_CLIENT db
  = mkRun db [debug_persisting SESSION_CLIENT] (Raised NoResultFound).
Proof.
  intros Hkinds Hpending Hh Hquery Hcompleted Hgate Hcid Hnone.
  apply String.eqb_neq in Hkinds.
  unfold persist_data, stage_session.
  rewrite Hpending, Hh. simpl. rewrite Hquery. simpl.
  rewrite Hkinds, String.eqb_refl, Hcompleted. simpl. rewrite Hgate, Hcid. simpl.
  unfold query_client. rewrite filter_none; [reflexivity|].
  intros c Hin. apply unicode_eqb_neq. intros ->. apply Hnone.
  apply in_map. exact Hin.
Qed.

(** X14. What is stored is what the record says: the staged session is in
    the committed store under the [id] of the record, [pending], received at
    [utcnow], with the protocol, the addresses, the ports and the honeypot
    of the record, its timestamp parsed, and one authentication attempt for
    each login attempt of the record, in order. *)
Theorem stored_session_is_the_record (env : Env) (data : Data) (topic : string)
    (db db1 : Store) (s : Session) (clients' : list Client) :
  stage_session env data topic db = Ok (staged s clients') ->
  add_and_commit s clients' db = Ok db1 ->
  lookup_session (id s) (sessions db1) = Some s
  /\ classification s = "pending"
  /\ received s = utcnow env
  /\ d_id data = Some (id s)
  /\ (exists text, d_timestamp data = Some text /\ strptime text = Ok (timestamp s))
  /\ d_protocol data = Some (protocol s)
  /\ d_destination_ip data = Some (destination_ip s)
  /\ d_destination_port data = Some (destination_port s)
  /\ d_source_ip data = Some (source_ip s)
  /\ d_source_port data = Some (source_port s)
  /\ d_honeypot_id data = Some (Some (honeypot s))
  /\ (exists attempts,
        d_login_attempts data = Some attempts
        /\ Forall2 (fun attempt auth => extract_auth_entity attempt = Ok auth)
             attempts (authentication s)).
Proof.
  intros Hstage Hcommit.
  destruct (stage_session_staged _ _ _ _ Hstage) as [Hpending _].
  destruct (add_and_commit_ok _ _ _ Hcommit) as (Hrows & _ & _ & Hfresh).
  destruct (stage_session_inv _ _ _ _ Hstage) as (Hh & _ & Hauth & _ & _).
  split; [rewrite Hrows; apply lookup_session_added, Hfresh|].
  split; [exact Hpending|].
  assert (Hcommon : exists label h t a b,
             set_common_columns env data label h t a b = Ok s).
  { unfold stage_session in Hstage. step_through Hstage;
      injection Hstage as <- _; eauto 10. }
  destruct Hcommon as (label & h0 & t & a & b & Hcommon).
  apply set_common_columns_inv in Hcommon
    as (Hid & Hts & Hp & Hdi & Hdp & Hsi & Hsp & Hr).
  do 9 (split; [assumption|]).
  unfold login_attempts in Hauth.
  destruct (d_login_attempts data) as [attempts|]; simpl in Hauth; [|discriminate].
  exists attempts. split; [reflexivity|]. apply for_each_Forall2, Hauth.
Qed.

End StoredFacts.

(** ** The primary key *)

Lemma lookup_session_None (key : unicode) (rows : list Session) :
  lookup_session key rows = None -> ~ In key (map id rows).
Proof.
  unfold lookup_session. intros H Hin. apply in_map_iff in Hin as (r & <- & Hr).
  apply (find_none _ _ H) in Hr. rewrite unicode_eqb_refl in Hr. discriminate.
Qed.

Lemma update_session_ids (row' : Session) (rows : list Session) :
  map id (update_session row' rows) = map id rows.
Proof.
  unfold update_session. rewrite map_map. apply map_ext_in. intros r _.
  destruct (unicode_eqb (id r) (id row')) eqn:E; [|reflexivity].
  apply unicode_eqb_eq in E. auto.
Qed.

Lemma delete_session_In (key : unicode) (row : Session) (rows : list Session) :
  In row (delete_session key rows) -> In row rows.
Proof. unfold delete_session. intros Hin. apply filter_In in Hin. tauto. Qed.

Lemma delete_session_keeps_ids_unique (key : unicode) (rows : list Session) :
  unique_ids rows -> unique_ids (delete_session key rows).
Proof.
  unfold unique_ids. induction rows as [|row rows IH]; intros Hu; simpl.
  - constructor.
  - apply NoDup_cons_iff in Hu as [Hfresh Hu].
    destruct (negb (unicode_eqb (id row) key)); simpl; [|apply IH, Hu].
    constructor; [|apply IH, Hu].
    intros Hin. apply Hfresh. apply in_map_iff in Hin as (other & Hid & Hin).
    apply in_map_iff. exists other. split; [exact Hid|].
    apply (delete_session_In key), Hin.
Qed.

Lemma merge_keeps_ids_unique (H B : Session) (db final : Store) :
  merge_bait_and_session H B db = Ok final ->
  unique_ids (sessions db) -> unique_ids (sessions final).
Proof.
  unfold merge_bait_and_session, unique_ids.
  destruct (format_merge_message H B); simpl; [|discriminate].
  destruct (query_classification db "bait_session"); simpl; [|discriminate].
  intros E Hu. injection E as <-. simpl.
  apply delete_session_keeps_ids_unique. unfold unique_ids.
  rewrite update_session_ids. exact Hu.
Qed.

Section PrimaryKey.

Context {imports : Imports}.

Lemma correlate_and_merge_keeps_ids_unique (s : Session) (topic : string)
    (db : Store) :
  unique_ids (sessions db) ->
  unique_ids (sessions (store (correlate_and_merge s topic db))).
Proof.
  intros Hu.
  assert (H : forall pair, unique_ids (sessions (store (correlate s db pair)))).
  { intros pair. unfold correlate.
    destruct (get_matching_session s db 5) as [[M|]|e]; simpl; auto.
    destruct (pair M) as [H B].
    destruct (merge_bait_and_session H B db) eqn:E; simpl; auto.
    eapply merge_keeps_ids_unique; eauto. }
  unfold correlate_and_merge.
  destruct (String.eqb topic SESSION_HONEYPOT); [apply H|].
  destruct (String.eqb topic SESSION_CLIENT); [apply H|]. exact Hu.
Qed.

Lemma persist_session_keeps_ids_unique (env : Env) (session_json topic : string)
    (db : Store) :
  unique_ids (sessions db) ->
  unique_ids (sessions (store (persist_session env session_json topic db))).
Proof.
  intros Hu. unfold persist_session.
  destruct (decode_payload session_json) as [data|e]; [|exact Hu].
  destruct (persist_data_cases env data topic db)
    as [-> | (s & c & db1 & _ & Hc & ->)]; [exact Hu|]. simpl.
  apply correlate_and_merge_keeps_ids_unique.
  destruct (add_and_commit_ok _ _ _ Hc) as (-> & _ & _ & Hfresh).
  unfold unique_ids in *. rewrite map_app. simpl.
  apply NoDup_app; [exact Hu | repeat constructor; auto |].
  intros k Hk [<-|[]]. exact (lookup_session_None _ _ Hfresh Hk).
Qed.

(** X15. The identifiers of the session table stay pairwise distinct: when
    they are before a feed, they are after it, whatever was added, merged
    or refused on the way. *)
Theorem run_keeps_ids_unique (feed : list (Env * string)) (db : Store) :
  unique_ids (sessions db) -> unique_ids (sessions (store (_run feed db))).
Proof.
  revert db. induction feed as [|[env message] feed IH]; intros db Hu; simpl;
    [exact Hu|].
  destruct (split_topic message) as [[topic session_json]|e]; simpl; [|exact Hu].
  pose proof (@persist_session_keeps_ids_unique env session_json topic db Hu) as Hp.
  destruct (outcome (persist_session env session_json topic db)); [|exact Hp].
  simpl. apply IH, Hp.
Qed.

(** X16. The gate is the only way a bait record is ignored, and it closes
    exactly when the record says [did_complete] false and the configuration
    says to ignore failed bait sessions, the two lookups before it having
    gone through. *)
Theorem gate_closes_exactly (env : Env) (data : Data) (db : Store) :
  SESSION_CLIENT <> SESSION_HONEYPOT ->
  (stage_session env data SESSION_CLIENT db = Ok ignored_failed_bait
   <-> (exists label h h',
          query_classification db "pending" = Ok label
          /\ d_honeypot_id data = Some (Some h)
          /\ query_honeypot db h = Ok h')
       /\ d_did_complete data = Some false
       /\ ignore_failed_bait_session env = true).
Proof.
  intros Hkinds. apply String.eqb_neq in Hkinds.
  unfold stage_session. rewrite Hkinds, String.eqb_refl. split.
  - intros H. step_through H; try discriminate H.
    repeat match goal with
           | Hg : getitem _ _ = Ok _ |- _ => apply getitem_ok in Hg
           end.
    match goal with
    | Hc : negb ?c && ?f = true |- _ =>
        apply andb_true_iff in Hc as [Hc ->]; apply negb_true_iff in Hc; subst c
    end.
    split; [eauto 10|]. split; [assumption | reflexivity].
  - intros ((label & h & h' & -> & -> & Hq) & -> & ->). simpl.
    rewrite Hq. reflexivity.
Qed.

(** X17. Two login attempts give matching credentials exactly when they
    agree on the success flag, on the username and on the password, an absent
    username or password counting as the empty one; the [id] and the
    timestamp of an attempt play no part. *)
Theorem absent_credentials_are_empty (a b : AuthData) (x y : Authentication) :
  extract_auth_entity a = Ok x ->
  extract_auth_entity b = Ok y ->
  (auth_equal y x = true
   <-> ad_successful a = ad_successful b
       /\ match ad_username a with Some v => v | None => [] end
          = match ad_username b with Some v => v | None => [] end
       /\ match ad_password a with Some v => v | None => [] end
          = match ad_password b with Some v => v | None => [] end).
Proof.
  unfold extract_auth_entity. intros Ha Hb. step_through Ha. step_through Hb.
  injection Ha as <-. injection Hb as <-.
  repeat match goal with
         | Hg : getitem _ _ = Ok _ |- _ => apply getitem_ok in Hg
         end.
  rewrite auth_equal_spec. simpl.
  repeat match goal with
         | Hg : ad_successful _ = Some _ |- _ => rewrite Hg; clear Hg
         end.
  split.
  - intros (-> & -> & ->). auto.
  - intros (Hs & -> & ->). injection Hs as ->. auto.
Qed.

End PrimaryKey.

(** ** Restart, clients *)

Lemma find_filter_Some {A : Type} (f p : A -> bool) (l : list A) (r : A) :
  find f l = Some r -> p r = true -> find f (filter p l) = Some r.
Proof.
  induction l as [|x l IH]; simpl; intros H Hp; [discriminate|].
  destruct (f x) eqn:Ef.
  - injection H as ->. rewrite Hp. simpl. rewrite Ef. reflexivity.
  - destruct (p x); simpl; [rewrite Ef|]; auto.
Qed.

Lemma find_filter_None {A : Type} (f p : A -> bool) (l : list A) :
  (forall x, In x l -> f x = true -> p x = false) ->
  find f (filter p l) = None.
Proof.
  induction l as [|x l IH]; simpl; intros H; [reflexivity|].
  destruct (p x) eqn:Ep; simpl.
  - destruct (f x) eqn:Ef; [|auto].
    rewrite (H x) in Ep by auto. discriminate.
  - auto.
Qed.

Section Restart.

Context {imports : Imports}.

Lemma stage_session_pending_label (env : Env) (data : Data) (topic : string)
    (db : Store) (s : Session) (clients' : list Client) :
  stage_session env data topic db = Ok (staged s clients') ->
  query_classification db "pending" = Ok "pending".
Proof.
  unfold stage_session. intros H.
  destruct (query_classification db "pending") as [label|] eqn:E;
    [|discriminate].
  apply query_classification_label in E. subst. reflexivity.
Qed.

(** X18. An unmatched session does not survive a restart: left [pending] by
    its correlation pass, it is deleted by the next start of the persister,
    which takes it for the residue of a crash. *)
Theorem restart_drops_unmatched_session (env : Env) (data : Data)
    (topic : string) (db db1 : Store) (s : Session) (clients' : list Client) :
  stage_session env data topic db = Ok (staged s clients') ->
  add_and_commit s clients' db = Ok db1 ->
  get_matching_session s db1 5 = Ok None ->
  store (persist_data env data topic db) = db1
  /\ lookup_session (id s) (sessions db1) = Some s
  /\ startup_outcome (__init__ false db1) = Returned
  /\ lookup_session (id s) (sessions (startup_store (__init__ false db1))) = None.
Proof.
  intros Hstage Hcommit Hnone.
  destruct (stage_session_staged _ _ _ _ Hstage) as [Hpending Hkind].
  destruct (add_and_commit_ok _ _ _ Hcommit) as (Hrows & Hcls & _ & Hfresh).
  split.
  { rewrite (persist_data_staged _ _ _ _ Hstage Hcommit).
    unfold correlate_and_merge, correlate.
    destruct Hkind as [(Ht & _) | (Ht & Ht' & _)]; rewrite Ht, ?Ht', Hnone;
      reflexivity. }
  split; [rewrite Hrows; apply lookup_session_added, Hfresh|].
  assert (Hlabel : query_classification db1 "pending" = Ok "pending").
  { unfold query_classification. rewrite Hcls.
    exact (stage_session_pending_label _ _ _ _ Hstage). }
  rewrite (startup_unfold false db1 Hlabel). simpl. split; [reflexivity|].
  apply find_filter_None. intros r Hin Hid. apply unicode_eqb_eq in Hid.
  apply negb_false_iff. unfold classified.
  rewrite Hrows in Hin. apply in_app_or in Hin as [Hin | [<- | []]].
  - exfalso. apply (lookup_session_None _ _ Hfresh). rewrite <- Hid.
    apply in_map. exact Hin.
  - rewrite Hpending. reflexivity.
Qed.

(** X19. A merged bait session survives a restart: classified
    [bait_session], it is not touched by the cleanup, and keeps the
    transcript it took from the honeypot session. *)
Theorem restart_keeps_merged_bait (H B : Session) (db final : Store) :
  query_classification db "bait_session" = Ok "bait_session" ->
  query_classification db "pending" = Ok "pending" ->
  id H <> id B -> In B (sessions db) ->
  merge_bait_and_session H B db = Ok final ->
  lookup_session (id B) (sessions (startup_store (__init__ false final)))
  = Some (merged_bait H B "bait_session")
  /\ lookup_session (id H) (sessions (startup_store (__init__ false final)))
     = None.
Proof.
  intros Hlabel Hpending Hid HB Hmerge.
  destruct (merge_bait_and_session_ascii _ _ _ Hmerge) as [HaB HaH].
  destruct (merge_bait_and_session_ok H B db HaB HaH Hlabel Hid HB)
    as (final' & E & HH & HBf & _).
  rewrite Hmerge in E. injection E as <-.
  assert (Hp : query_classification final "pending" = Ok "pending").
  { unfold merge_bait_and_session in Hmerge.
    rewrite (format_merge_message_ok _ _ HaB HaH), Hlabel in Hmerge.
    injection Hmerge as <-. exact Hpending. }
  rewrite (startup_unfold false final Hp). simpl. split.
  - apply find_filter_Some; [exact HBf | reflexivity].
  - apply find_filter_None. intros r Hin Hr. exfalso.
    apply unicode_eqb_eq in Hr.
    apply (lookup_session_None _ _ HH). rewrite <- Hr. apply in_map. exact Hin.
Qed.

(** X20. Persisting a bait session stamps its client and no other: in the
    committed store the client of the session has [last_activity] at [now],
    and the clients with another id are the ones of before; a honeypot
    session leaves the clients as they were. *)
Theorem bait_session_stamps_client (env : Env) (data : Data) (topic : string)
    (db db1 : Store) (s : Session) (clients' : list Client) :
  stage_session env data topic db = Ok (staged s clients') ->
  add_and_commit s clients' db = Ok db1 ->
  match bait s with
  | None => clients db1 = clients db
  | Some columns =>
      In (client columns) (map client_id (clients db1))
      /\ (forall c, In c (clients db1) -> client_id c = client columns ->
                    last_activity c = Some (now env))
      /\ (forall c, client_id c <> client columns ->
                    (In c (clients db1) <-> In c (clients db)))
  end.
Proof.
  intros Hstage Hcommit.
  apply stage_session_inv in Hstage as (_ & _ & _ & _ & Hkind).
  unfold add_and_commit in Hcommit.
  destruct (lookup_session _ _); [discriminate|]. injection Hcommit as <-.
  simpl.
  destruct Hkind as [(_ & -> & -> & _) | (_ & _ & _ & _ & Hc)]; [reflexivity|].
  destruct Hc as (cid & c1 & c2 & c3 & _ & Hin & _ & _ & _ & -> & ->). simpl.
  split; [rewrite touch_client_ids; exact Hin|].
  unfold touch_client. split.
  - intros c Hc Hid. apply in_map_iff in Hc as (c0 & <- & _).
    destruct (unicode_eqb (client_id c0) cid) eqn:E; [reflexivity|].
    apply unicode_eqb_neq in E. contradiction.
  - intros c Hid. rewrite in_map_iff. split.
    + intros (c0 & <- & Hc0).
      destruct (unicode_eqb (client_id c0) cid) eqn:E; [|exact Hc0].
      apply unicode_eqb_eq in E. simpl in Hid. contradiction.
    + intros Hc. exists c. split; [|exact Hc].
      apply unicode_eqb_neq in Hid. rewrite Hid. reflexivity.
Qed.

End Restart.

(** ** The further properties on the sample stores *)

Lemma startup_cleans_pending_witness :
  map summary (sessions (startup_store (__init__ false db_mixed)))
  = [(u "p5", "bait_session", [])]
  /\ startup_log (__init__ false db_mixed) = [info_cleaned 2].
Proof.
  destruct (@startup_cleans_pending db_mixed eq_refl) as (n & Hrun & _ & Hn & _).
  split; [vm_compute; reflexivity|].
  assert (Hleft : List.length (sessions (startup_store (__init__ false db_mixed)))
                  = 1%nat) by (vm_compute; reflexivity).
  rewrite Hleft in Hn. simpl in Hn.
  rewrite Hrun. simpl. f_equal. f_equal. lia.
Defined.

Lemma startup_clear_sessions_witness :
  sessions (startup_store (__init__ true db_mixed)) = []
  /\ startup_outcome (__init__ true db_mixed) = Returned.
Proof.
  destruct (@startup_clear_sessions db_mixed eq_refl) as (p & c & Hrun & _).
  rewrite Hrun. split; reflexivity.
Defined.

Lemma startup_requires_pending_label_witness :
  __init__ true db_unlabelled = mkStartup db_unlabelled [] (Raised NoResultFound).
Proof.
  apply startup_requires_pending_label. simpl.
  intros [H|[H|[]]]; discriminate H.
Defined.

Lemma startup_idempotent_witness :
  __init__ false (startup_store (__init__ false db_mixed))
  = mkStartup (startup_store (__init__ false db_mixed)) [info_cleaned 0] Returned.
Proof. apply (@startup_idempotent false db_mixed). reflexivity. Defined.

Lemma split_topic_join_witness :
  split_topic "SESSION_FOO a b c" = Ok ("SESSION_FOO", "a b c").
Proof.
  apply (proj2 (split_topic_join "SESSION_FOO a b c" "SESSION_FOO" "a b c")).
  split; reflexivity.
Defined.

Lemma message_without_space_ends_loop_witness :
  run_of [(env0, "SESSION_HONEYPOT"); (env0, message "SESSION_HONEYPOT" h1)] db0
  = mkRun db0 [] (Raised ValueError).
Proof.
  apply (@message_without_space_ends_loop Reference.imports). reflexivity.
Defined.

Lemma get_matching_session_raises_witness :
  get_matching_session at_dawn db_mixed 5 = Raise OverflowError.
Proof.
  apply (proj2 (@get_matching_session_raises at_dawn db_mixed 5 OverflowError
                  ltac:(lia))).
  split; [reflexivity|]. unfold window_in_range, datetime_min, seconds. simpl. lia.
Defined.

Lemma bait_base_finds_no_match_witness :
  candidate_query at_plus_5s (with_rows [base; same_kind; at_minus_5s])
    (ten_o_clock - 5000000) (ten_o_clock + 10000000) = []
  /\ (get_matching_session at_plus_5s (with_rows [base; same_kind; at_minus_5s]) 5
      = Ok None
      \/ get_matching_session at_plus_5s (with_rows [base; same_kind; at_minus_5s]) 5
         = Raise OverflowError).
Proof.
  assert (H : bait at_plus_5s <> None) by (simpl; discriminate).
  split.
  - apply (proj1 (@bait_base_finds_no_match at_plus_5s
                    (with_rows [base; same_kind; at_minus_5s]) 5 H)).
  - apply (proj2 (@bait_base_finds_no_match at_plus_5s
                    (with_rows [base; same_kind; at_minus_5s]) 5 H)).
Defined.

Lemma no_attempts_no_match_witness :
  authentication base <> [] /\ authentication at_plus_5s <> [].
Proof.
  apply (@no_attempts_no_match base at_plus_5s (with_rows [at_plus_5s]) 5).
  vm_compute. reflexivity.
Defined.

Lemma exception_after_commit_witness :
  (store (@persist_data Reference.imports env0 data_h1 "SESSION_HONEYPOT"
            db_b1_unlabelled) = db_b1_unlabelled_then_h1
   /\ outcome (@persist_data Reference.imports env0 data_h1 "SESSION_HONEYPOT"
                 db_b1_unlabelled) = Raised NoResultFound
   /\ map summary (sessions db_b1_unlabelled_then_h1)
      = [(u "b1", "pending", []); (u "h1", "pending", [u "ls"])])
  /\ (store (@persist_data Reference.imports env0 data_h_latin1 "SESSION_HONEYPOT"
               db_b1) = db_b1_then_h_latin1
      /\ outcome (@persist_data Reference.imports env0 data_h_latin1
                    "SESSION_HONEYPOT" db_b1) = Raised UnicodeEncodeError
      /\ map summary (sessions db_b1_then_h_latin1)
         = [(u "b1", "pending", []); (u (payload_of "h~"), "pending", [u "ls"])]).
Proof.
  split.
  - assert (Hs : @stage_session Reference.imports env0 data_h1 "SESSION_HONEYPOT"
                   db_b1_unlabelled = Ok (staged s_h1_unlabelled touched))
      by (vm_compute; reflexivity).
    assert (Hc : add_and_commit s_h1_unlabelled touched db_b1_unlabelled
                 = Ok db_b1_unlabelled_then_h1) by (vm_compute; reflexivity).
    assert (Hm : get_matching_session s_h1_unlabelled db_b1_unlabelled_then_h1 5
                 = Ok (Some row_b1)) by (vm_compute; reflexivity).
    assert (Hq : is_ascii (id row_b1) && is_ascii (id s_h1_unlabelled) = true
                 /\ query_classification db_b1_unlabelled_then_h1 "bait_session"
                    = Raise NoResultFound)
      by (split; vm_compute; reflexivity).
    destruct (@exception_after_commit Reference.imports env0 data_h1
                "SESSION_HONEYPOT" db_b1_unlabelled db_b1_unlabelled_then_h1
                s_h1_unlabelled touched NoResultFound Hs Hc
                (or_intror (ex_intro _ row_b1 (conj Hm (or_intror Hq)))))
      as (Hstore & Hout & _).
    split; [exact Hstore|]. split; [exact Hout|]. vm_compute. reflexivity.
  - assert (Hs : @stage_session Reference.imports env0 data_h_latin1
                   "SESSION_HONEYPOT" db_b1 = Ok (staged s_h_latin1 touched))
      by (vm_compute; reflexivity).
    assert (Hc : add_and_commit s_h_latin1 touched db_b1 = Ok db_b1_then_h_latin1)
      by (vm_compute; reflexivity).
    assert (Hm : get_matching_session s_h_latin1 db_b1_then_h_latin1 5
                 = Ok (Some row_b1)) by (vm_compute; reflexivity).
    assert (Hq : is_ascii (id row_b1) && is_ascii (id s_h_latin1) = false
                 /\ UnicodeEncodeError = UnicodeEncodeError)
      by (split; vm_compute; reflexivity).
    destruct (@exception_after_commit Reference.imports env0 data_h_latin1
                "SESSION_HONEYPOT" db_b1 db_b1_then_h_latin1
                s_h_latin1 touched UnicodeEncodeError Hs Hc
                (or_intror (ex_intro _ row_b1 (conj Hm (or_introl Hq)))))
      as (Hstore & Hout & _).
    split; [exact Hstore|]. split; [exact Hout|]. vm_compute. reflexivity.
Defined.

Lemma unknown_client_not_persisted_witness :
  @persist_data Reference.imports env0 data_b1 "SESSION_CLIENT" db_no_clients
  = mkRun db_no_clients [debug_persisting "SESSION_CLIENT"] (Raised NoResultFound).
Proof.
  apply (@unknown_client_not_persisted Reference.imports env0 data_b1
           db_no_clients (u "hp") (u "c1") true);
    try reflexivity; [discriminate | intros []].
Defined.

Lemma stored_session_is_the_record_witness :
  lookup_session (u "h1") (sessions db_h1) = Some row_h1
  /\ d_protocol data_h1 = Some (protocol row_h1)
  /\ received row_h1 = 2000.
Proof.
  assert (Hs : @stage_session Reference.imports env0 data_h1 "SESSION_HONEYPOT"
                 db0 = Ok (staged row_h1 (clients db0)))
    by (vm_compute; reflexivity).
  assert (Hc : add_and_commit row_h1 (clients db0) db0 = Ok db_h1)
    by (vm_compute; reflexivity).
  destruct (@stored_session_is_the_record Reference.imports env0 data_h1
              "SESSION_HONEYPOT" db0 db_h1 row_h1 (clients db0) Hs Hc)
    as (Hl & _ & Hr & _ & _ & Hp & _).
  split; [exact Hl|]. split; [exact Hp | exact Hr].
Defined.

Lemma run_keeps_ids_unique_witness :
  unique_ids
    (sessions (store (run_of [(env0, message "SESSION_HONEYPOT" h1);
                              (env0, message "SESSION_CLIENT" b7);
                              (env0, message "SESSION_HONEYPOT" h1)] db0))).
Proof.
  apply (@run_keeps_ids_unique Reference.imports). constructor.
Defined.

Lemma gate_closes_exactly_witness :
  @stage_session Reference.imports env_ignore data_b_failed "SESSION_CLIENT" db_h1
  = Ok ignored_failed_bait.
Proof.
  apply (proj2 (@gate_closes_exactly Reference.imports env_ignore data_b_failed
                  db_h1 ltac:(discriminate))).
  split; [|split; reflexivity].
  exists "pending", (u "hp"), (u "hp"). repeat split; reflexivity.
Defined.

Lemma absent_credentials_are_empty_witness :
  exists x y,
    @extract_auth_entity Reference.imports attempt_without_username = Ok x
    /\ @extract_auth_entity Reference.imports attempt_with_empty_username = Ok y
    /\ auth_equal y x = true.
Proof.
  eexists. eexists. split; [vm_compute; reflexivity|].
  split; [vm_compute; reflexivity|].
  eapply (proj2 (@absent_credentials_are_empty Reference.imports
                   attempt_without_username attempt_with_empty_username
                   _ _ eq_refl eq_refl)).
  repeat split; reflexivity.
Defined.

Lemma restart_drops_unmatched_session_witness :
  lookup_session (u "b7") (sessions db_h1_then_b7) = Some s_b7
  /\ lookup_session (u "b7")
       (sessions (startup_store (__init__ false db_h1_then_b7))) = None.
Proof.
  assert (Hs : @stage_session Reference.imports env0 data_b7 "SESSION_CLIENT" db_h1
               = Ok (staged s_b7 touched)) by (vm_compute; reflexivity).
  assert (Hc : add_and_commit s_b7 touched db_h1 = Ok db_h1_then_b7)
    by (vm_compute; reflexivity).
  assert (Hn : get_matching_session s_b7 db_h1_then_b7 5 = Ok None)
    by (vm_compute; reflexivity).
  destruct (@restart_drops_unmatched_session Reference.imports env0 data_b7
              "SESSION_CLIENT" db_h1 db_h1_then_b7 s_b7 touched Hs Hc Hn)
    as (_ & Hl & _ & Hgone).
  split; [exact Hl | exact Hgone].
Defined.

Lemma honeypot_match_is_merged_witness :
  exists final,
    @persist_data Reference.imports env0 data_h1 "SESSION_HONEYPOT" db_b1
    = mkRun final [debug_persisting "SESSION_HONEYPOT";
                   debug_merge (u "b1") (u "h1")] Returned
    /\ lookup_session (u "h1") (sessions final) = None
    /\ option_map summary (lookup_session (u "b1") (sessions final))
       = Some (u "b1", "bait_session", [u "ls"]).
Proof.
  assert (Hs : @stage_session Reference.imports env0 data_h1 "SESSION_HONEYPOT" db_b1
               = Ok (staged s_h1 touched)) by (vm_compute; reflexivity).
  assert (Hc : add_and_commit s_h1 touched db_b1 = Ok db_b1_then_h1)
    by (vm_compute; reflexivity).
  assert (Hm : get_matching_session s_h1 db_b1_then_h1 5 = Ok (Some row_b1))
    by (vm_compute; reflexivity).
  assert (Has : is_ascii (id s_h1) = true) by (vm_compute; reflexivity).
  assert (HaM : is_ascii (id row_b1) = true) by (vm_compute; reflexivity).
  assert (Hl : query_classification db_b1_then_h1 "bait_session" = Ok "bait_session")
    by (vm_compute; reflexivity).
  destruct (@honeypot_match_is_merged Reference.imports env0 data_h1 db_b1
              db_b1_then_h1 s_h1 row_b1 touched Hs Hc Hm Has HaM Hl)
    as (final & Hrun & HH & HB & _).
  exists final. split; [exact Hrun|]. split; [exact HH|].
  change (u "b1") with (id row_b1). rewrite HB. reflexivity.
Defined.

Lemma restart_keeps_merged_bait_witness :
  map summary (sessions (startup_store (__init__ false db_b1_h1)))
  = [(u "b1", "bait_session", [u "ls"])]
  /\ lookup_session (u "h1") (sessions (startup_store (__init__ false db_b1_h1)))
     = None.
Proof.
  assert (Hm : merge_bait_and_session s_h1 row_b1 db_b1_then_h1 = Ok db_b1_h1)
    by (vm_compute; reflexivity).
  assert (Hid : id s_h1 <> id row_b1) by discriminate.
  assert (Hin : In row_b1 (sessions db_b1_then_h1)) by (left; reflexivity).
  destruct (@restart_keeps_merged_bait s_h1 row_b1 db_b1_then_h1 db_b1_h1
              eq_refl eq_refl Hid Hin Hm) as (_ & Hgone).
  split; [vm_compute; reflexivity | exact Hgone].
Defined.

Lemma bait_session_stamps_client_witness :
  clients db_h1 = [mkClient (u "c1") None]
  /\ last_activity (hd (mkClient [] None) (clients db_h1_then_b1)) = Some 1000.
Proof.
  split; [reflexivity|].
  assert (Hs : @stage_session Reference.imports env0 data_b1 "SESSION_CLIENT" db_h1
               = Ok (staged s_b1 touched)) by (vm_compute; reflexivity).
  assert (Hc : add_and_commit s_b1 touched db_h1 = Ok db_h1_then_b1)
    by (vm_compute; reflexivity).
  pose proof (@bait_session_stamps_client Reference.imports env0 data_b1
                "SESSION_CLIENT" db_h1 db_h1_then_b1 s_b1 touched Hs Hc) as H.
  simpl in H. destruct H as (_ & H & _).
  apply H; [left; reflexivity | reflexivity].
Defined.
